(** * gitnotekv: Git notes as a key-value store

    A shallow embedding of [gitnotekv.py]: the [Repo] session object, the
    [RepoRef] handle it hands out per resolved Git reference, and the
    properties of the natural-language specification settled against them.

    Conventions of the embedding.
    - Python objects that reach the library are values of [PyVal]: [None],
      booleans, integers, strings, bytes, lists, tuples and string-keyed
      dicts.  Floats and instances of user-defined classes are left out.
    - The text exchanged with [git notes] is kept as what the [json] module
      makes of it: either text that [json.loads] rejects, or the text of a
      JSON value, carried as its syntax tree [Json] (numbers are integers).
    - [sh.git] is the external collaborator; it is an interface
      ([GitTool]) over an arbitrary world state, and every command the
      code issues is recorded in a log.  [SimpleGit] is a reference
      implementation of it.
    - Exceptions are values of [PyExc]; a method is a function returning
      the new state together with [Ok v] or [Raise e].
    - Handles are objects with identity: they live in a heap and are
      passed around by object id.

    Names of the specification and of the code.
    - Repository Session: [Repo]; Open, Resolve, Close: [__enter__],
      [__getitem__], [__exit__].
    - Namespace Handle: [RepoRef]; Get, Set, Contains, Delete:
      [__getitem__], [__setitem__], [__contains__], [__delitem__].
    - [InvalidKeyTypeError]: [ValueError]; [KeyNotFoundError]: [KeyError];
      [MalformedNoteError]: [MalformedNoteDataError];
      [RepositoryNotFoundError]: [RepoDoesNotExistError];
      [ReferenceNotFoundError]: [GitReferenceDoesNotExistError]. *)

From Stdlib Require Import ZArith Lia Bool.
From stdpp Require Import base tactics option list strings.

Set Warnings "-register-all".
Local Open Scope string_scope.
Local Open Scope list_scope.

(** ** Python values *)

Inductive PyVal : Type :=
| PyNone
| PyBool (b : bool)
| PyInt (z : Z)
| PyStr (s : string)
| PyBytes (s : string)
| PyList (l : list PyVal)
| PyTuple (l : list PyVal)
| PyDict (d : list (string * PyVal)).

(** A Python [dict] whose keys are strings, in insertion order. *)
Abbreviation dict := (list (string * PyVal)).

(** [isinstance(key, str)] *)
Definition isinstance_str (key : PyVal) : bool :=
  match key with PyStr _ => true | _ => false end.


(** Whether [hash(v)] succeeds: lists and dicts are unhashable, a tuple is
    hashable when all its items are. *)
Fixpoint hashable (v : PyVal) : bool :=
  match v with
  | PyList _ | PyDict _ => false
  | PyTuple l => forallb hashable l
  | _ => true
  end.

(** Induction on values, through the lists and dicts they contain. *)
Section PyVal_induction.

Variable P : PyVal -> Prop.
Hypothesis HNone : P PyNone.
Hypothesis HBool : forall b, P (PyBool b).
Hypothesis HInt : forall z, P (PyInt z).
Hypothesis HStr : forall s, P (PyStr s).
Hypothesis HBytes : forall s, P (PyBytes s).
Hypothesis HList : forall l, Forall P l -> P (PyList l).
Hypothesis HTuple : forall l, Forall P l -> P (PyTuple l).
Hypothesis HDict : forall d, Forall (fun kv => P (snd kv)) d -> P (PyDict d).

Fixpoint PyVal_nested_ind (v : PyVal) : P v :=
  match v with
  | PyNone => HNone
  | PyBool b => HBool b
  | PyInt z => HInt z
  | PyStr s => HStr s
  | PyBytes s => HBytes s
  | PyList l =>
      HList l ((fix go (l : list PyVal) : Forall P l :=
                  match l with
                  | [] => @List.Forall_nil _ P
                  | x :: l' => @List.Forall_cons _ P x l' (PyVal_nested_ind x) (go l')
                  end) l)
  | PyTuple l =>
      HTuple l ((fix go (l : list PyVal) : Forall P l :=
                   match l with
                   | [] => @List.Forall_nil _ P
                   | x :: l' => @List.Forall_cons _ P x l' (PyVal_nested_ind x) (go l')
                   end) l)
  | PyDict d =>
      HDict d ((fix go (d : dict) : Forall (fun kv => P (snd kv)) d :=
                  match d with
                  | [] => @List.Forall_nil _ _
                  | kv :: d' =>
                      @List.Forall_cons _ (fun kv => P (snd kv)) kv d'
                        (PyVal_nested_ind (snd kv)) (go d')
                  end) d)
  end.

End PyVal_induction.

(** ** Exceptions *)

Inductive PyExc : Type :=
| RepoDoesNotExistError (repo_path : string)
| GitReferenceDoesNotExistError (key : string)
| MalformedNoteDataError
| JSONDecodeError
| ValueError
| KeyError (key : PyVal)
| TypeError
| AttributeError
| SystemError
| ErrorReturnCode (code : Z).

Inductive result (A : Type) : Type :=
| Ok (a : A)
| Raise (e : PyExc).
Arguments Ok {A} a.
Arguments Raise {A} e.

Definition is_ok {A} (r : result A) : bool :=
  match r with Ok _ => true | Raise _ => false end.

(** ** Insertion-ordered maps with string keys

    Python's [dict] keeps insertion order; the same structure serves for
    the documents, for [Repo.active_refs] and for the notes of a
    repository. *)

Section Assoc.
Context {V : Type}.

Fixpoint assoc_find (d : list (string * V)) (k : string) : option V :=
  match d with
  | [] => None
  | (k', v) :: d' => if String.eqb k' k then Some v else assoc_find d' k
  end.

(** [d[k] = v]: an existing key keeps its position, a new key goes last. *)
Fixpoint assoc_store (d : list (string * V)) (k : string) (v : V)
  : list (string * V) :=
  match d with
  | [] => [(k, v)]
  | (k', v') :: d' =>
      if String.eqb k' k then (k', v) :: d' else (k', v') :: assoc_store d' k v
  end.

(** [del d[k]] on a dict that may or may not hold [k]: no binding of [k]
    is left. *)
Fixpoint assoc_remove (d : list (string * V)) (k : string)
  : list (string * V) :=
  match d with
  | [] => []
  | (k', v') :: d' =>
      if String.eqb k' k then assoc_remove d' k
      else (k', v') :: assoc_remove d' k
  end.
End Assoc.

(** ** Built-in [dict] operations with an arbitrary key object *)

Definition dict_find (d : dict) (k : string) : option PyVal := assoc_find d k.
Definition dict_store (d : dict) (k : string) (v : PyVal) : dict := assoc_store d k v.
Definition dict_remove (d : dict) (k : string) : dict := assoc_remove d k.

(** [d[key]] for an arbitrary key object: the key is hashed first
    ([TypeError] when unhashable); no object other than a [str] equals a
    [str] key. *)
Definition dict_getitem (d : dict) (key : PyVal) : result PyVal :=
  if negb (hashable key) then Raise TypeError
  else match key with
       | PyStr k =>
           match dict_find d k with
           | Some v => Ok v
           | None => Raise (KeyError key)
           end
       | _ => Raise (KeyError key)
       end.

(** [key in d] *)
Definition dict_contains (d : dict) (key : PyVal) : result bool :=
  if negb (hashable key) then Raise TypeError
  else match key with
       | PyStr k => Ok (bool_decide (is_Some (dict_find d k)))
       | _ => Ok false
       end.

(** [del d[key]] *)
Definition dict_delitem (d : dict) (key : PyVal) : result dict :=
  if negb (hashable key) then Raise TypeError
  else match key with
       | PyStr k =>
           match dict_find d k with
           | Some _ => Ok (dict_remove d k)
           | None => Raise (KeyError key)
           end
       | _ => Raise (KeyError key)
       end.

(** ** [class RepoRef]: the key-value pairs under one Git reference *)

Record RepoRef : Type := mkRepoRef {
  ref : string;        (* self.ref: the resolved reference *)
  note_kv : dict       (* self.note_kv: the in-memory document *)
}.

Definition set_note_kv (self : RepoRef) (d : dict) : RepoRef :=
  {| ref := ref self; note_kv := d |}.

Module RepoRefOps.

(** [RepoRef.__getitem__] *)
Definition getitem (self : RepoRef) (key : PyVal) : RepoRef * result PyVal :=
  if negb (isinstance_str key) then (self, Raise ValueError)
  else (self, dict_getitem (note_kv self) key).

(** [RepoRef.__setitem__] *)
Definition setitem (self : RepoRef) (key value : PyVal) : RepoRef * result unit :=
  match key with
  | PyStr k => (set_note_kv self (dict_store (note_kv self) k value), Ok tt)
  | _ => (self, Raise ValueError)   (* not isinstance(key, str) *)
  end.

(** [RepoRef.__contains__] *)
Definition contains (self : RepoRef) (key : PyVal) : RepoRef * result bool :=
  (self, dict_contains (note_kv self) key).

(** [RepoRef.__delitem__] *)
Definition delitem (self : RepoRef) (key : PyVal) : RepoRef * result unit :=
  match dict_delitem (note_kv self) key with
  | Ok d => (set_note_kv self d, Ok tt)
  | Raise e => (self, Raise e)
  end.

(** [RepoRef.get]: [KeyError] from [self[key]] becomes [default]. *)
Definition get (self : RepoRef) (key default : PyVal) : RepoRef * result PyVal :=
  match getitem self key with
  | (self', Raise (KeyError _)) => (self', Ok default)
  | r => r
  end.

(** [RepoRef.clear] *)
Definition clear (self : RepoRef) : RepoRef * result unit :=
  (set_note_kv self [], Ok tt).

End RepoRefOps.

(** ** The [json] module, on syntax trees *)

Inductive Json : Type :=
| JNull
| JBool (b : bool)
| JNum (z : Z)
| JStr (s : string)
| JArr (items : list Json)
| JObj (members : list (string * Json)).

(** Induction on JSON values, through arrays and objects. *)
Section Json_induction.

Variable P : Json -> Prop.
Hypothesis HNull : P JNull.
Hypothesis HBool : forall b, P (JBool b).
Hypothesis HNum : forall z, P (JNum z).
Hypothesis HStr : forall s, P (JStr s).
Hypothesis HArr : forall items, Forall P items -> P (JArr items).
Hypothesis HObj : forall members, Forall (fun kv => P (snd kv)) members -> P (JObj members).

Fixpoint Json_nested_ind (j : Json) : P j :=
  match j with
  | JNull => HNull
  | JBool b => HBool b
  | JNum z => HNum z
  | JStr s => HStr s
  | JArr items =>
      HArr items ((fix go (l : list Json) : Forall P l :=
                     match l with
                     | [] => @List.Forall_nil _ P
                     | x :: l' => @List.Forall_cons _ P x l' (Json_nested_ind x) (go l')
                     end) items)
  | JObj members =>
      HObj members ((fix go (l : list (string * Json)) : Forall (fun kv => P (snd kv)) l :=
                       match l with
                       | [] => @List.Forall_nil _ _
                       | kv :: l' =>
                           @List.Forall_cons _ (fun kv => P (snd kv)) kv l'
                             (Json_nested_ind (snd kv)) (go l')
                       end) members)
  end.

End Json_induction.

(** Text as [git notes] stores and prints it, seen through [json.loads]:
    text that is not JSON, or the text of a JSON value. *)
Inductive NoteText : Type :=
| NotJson (text : string)
| JsonText (j : Json).

(** [json.dumps]: lists and tuples both become arrays, [bytes] is refused
    with [TypeError]. *)
Fixpoint json_dumps (v : PyVal) : result Json :=
  let fix dumps_items (l : list PyVal) : result (list Json) :=
    match l with
    | [] => Ok []
    | x :: l' =>
        match json_dumps x with
        | Raise e => Raise e
        | Ok j => match dumps_items l' with
                  | Raise e => Raise e
                  | Ok js => Ok (j :: js)
                  end
        end
    end in
  let fix dumps_members (d : dict) : result (list (string * Json)) :=
    match d with
    | [] => Ok []
    | (k, x) :: d' =>
        match json_dumps x with
        | Raise e => Raise e
        | Ok j => match dumps_members d' with
                  | Raise e => Raise e
                  | Ok js => Ok ((k, j) :: js)
                  end
        end
    end in
  match v with
  | PyNone => Ok JNull
  | PyBool b => Ok (JBool b)
  | PyInt z => Ok (JNum z)
  | PyStr s => Ok (JStr s)
  | PyBytes _ => Raise TypeError
  | PyList l | PyTuple l =>
      match dumps_items l with Ok js => Ok (JArr js) | Raise e => Raise e end
  | PyDict d =>
      match dumps_members d with Ok js => Ok (JObj js) | Raise e => Raise e end
  end.

(** [dict(pairs)]: members are stored left to right, so a repeated name
    keeps its first position and its last value. *)
Definition dict_of_pairs (pairs : dict) : dict :=
  fold_left (fun d kv => dict_store d (fst kv) (snd kv)) pairs [].

(** What the decoder builds from a JSON value: arrays become lists,
    objects become dicts. *)
Fixpoint json_decode (j : Json) : PyVal :=
  match j with
  | JNull => PyNone
  | JBool b => PyBool b
  | JNum z => PyInt z
  | JStr s => PyStr s
  | JArr items => PyList (map json_decode items)
  | JObj members =>
      PyDict (dict_of_pairs (map (fun kv => (fst kv, json_decode (snd kv))) members))
  end.

(** [json.loads] *)
Definition json_loads (note_data : NoteText) : result PyVal :=
  match note_data with
  | NotJson _ => Raise JSONDecodeError
  | JsonText j => Ok (json_decode j)
  end.

(** ** [str.strip] on ASCII text *)

Definition isspace (c : Ascii.ascii) : bool :=
  let n := Ascii.nat_of_ascii c in
  ((9 <=? n)%nat && (n <=? 13)%nat) || ((28 <=? n)%nat && (n <=? 32)%nat).

Fixpoint lstrip (s : string) : string :=
  match s with
  | String c s' => if isspace c then lstrip s' else s
  | EmptyString => EmptyString
  end.

Fixpoint rstrip (s : string) : string :=
  match s with
  | String c s' =>
      match rstrip s' with
      | EmptyString => if isspace c then EmptyString else String c EmptyString
      | t => String c t
      end
  | EmptyString => EmptyString
  end.

Definition strip (s : string) : string := rstrip (lstrip s).

(** ** The external collaborator: [sh.git] *)

(** The commands of [git --no-pager -C repo_path ...] that a session can
    issue.  [git_push] stands for any [git push ...] invocation. *)
Inductive GitCmd : Type :=
| git_rev_parse (key : option string)                  (* rev-parse [key] *)
| git_notes_show (ref : string)                        (* notes show ref *)
| git_notes_add_f_m (msg : Json) (ref : string)        (* notes add -f -m msg ref *)
| git_notes_remove_ignore_missing (ref : string)       (* notes remove --ignore-missing ref *)
| git_push (args : list string).

(** What a finished command leaves behind: its standard output on exit
    code 0, the exit code otherwise ([sh] raises [ErrorReturnCode_<n>]). *)
Inductive Finished (A : Type) : Type :=
| Stdout (out : A)
| ExitCode (code : Z).
Arguments Stdout {A} out.
Arguments ExitCode {A} code.

(** The tool over a world [G] (the repository on disk and whatever else
    decides how a command ends).  Each command may change the world. *)
Class GitTool (G : Type) : Type := {
  run_rev_parse : string -> option string -> G -> G * Finished string;
  run_notes_show : string -> string -> G -> G * Finished NoteText;
  run_notes_add : string -> Json -> string -> G -> G * Finished unit;
  run_notes_remove : string -> string -> G -> G * Finished unit
}.

(** ** [class Repo]: one session on a repository *)

(** Handles are Python objects: the heap maps an object id to the
    [RepoRef] stored there, and [active_refs] holds ids, so that a handle
    given out twice is one object. *)
Abbreviation oid := nat.

Record Repo : Type := mkRepo {
  repo_path : string;
  remote_push : bool;
  active_refs : option (list (string * oid))   (* None before __enter__ *)
}.

Section Session.

Context {G : Type} `{GitTool G}.

Record State : Type := mkState {
  world : G;                 (* the repository behind sh.git *)
  log : list GitCmd;         (* commands issued so far, oldest first *)
  heap : list RepoRef;       (* the RepoRef objects created so far *)
  self : Repo                (* the Repo object *)
}.

Definition M (A : Type) : Type := State -> State * result A.

Definition ret {A} (a : A) : M A := fun st => (st, Ok a).
Definition raise {A} (e : PyExc) : M A := fun st => (st, Raise e).
Definition bind {A B} (m : M A) (k : A -> M B) : M B :=
  fun st => match m st with
            | (st', Ok a) => k a st'
            | (st', Raise e) => (st', Raise e)
            end.
(** [try: m except <handler matches e>: ...]; [handler e = None] lets
    [e] propagate. *)
Definition try_except {A} (m : M A) (handler : PyExc -> option (M A)) : M A :=
  fun st => match m st with
            | (st', Raise e) =>
                match handler e with
                | Some h => h st'
                | None => (st', Raise e)
                end
            | r => r
            end.

(** [except sh.ErrorReturnCode_<n>: h] *)
Definition except_ErrorReturnCode {A} (n : Z) (h : M A) : PyExc -> option (M A) :=
  fun e => match e with
           | ErrorReturnCode code => if Z.eqb code n then Some h else None
           | _ => None
           end.

(** [except json.decoder.JSONDecodeError: h] *)
Definition except_JSONDecodeError {A} (h : M A) : PyExc -> option (M A) :=
  fun e => match e with JSONDecodeError => Some h | _ => None end.

Notation "'let!' x ':=' m 'in' k" := (bind m (fun x => k))
  (at level 10, x name, m at level 200, k at level 200, only parsing).

(** State updates: a command was run, an object was stored, the cache
    was assigned. *)
Definition logged (st : State) (w : G) (cmd : GitCmd) : State :=
  {| world := w; log := log st ++ [cmd]; heap := heap st; self := self st |}.

Definition stored (st : State) (o : RepoRef) : State :=
  {| world := world st; log := log st; heap := heap st ++ [o]; self := self st |}.

Definition cached (st : State) (refs : list (string * oid)) : State :=
  {| world := world st; log := log st; heap := heap st;
     self := {| repo_path := repo_path (self st);
                remote_push := remote_push (self st);
                active_refs := Some refs |} |}.

(** Running a command through [sh]: log it, let the tool act on the
    world, raise [ErrorReturnCode] on a non-zero exit code. *)
Definition sh {A} (cmd : GitCmd) (run : G -> G * Finished A) : M A :=
  fun st =>
    let st' := logged st (fst (run (world st))) cmd in
    match snd (run (world st)) with
    | Stdout out => (st', Ok out)
    | ExitCode code => (st', Raise (ErrorReturnCode code))
    end.

Definition git_rev_parse_ (key : option string) : M string :=
  fun st => sh (git_rev_parse key)
               (run_rev_parse (repo_path (self st)) key) st.
Definition git_notes_show_ (r : string) : M NoteText :=
  fun st => sh (git_notes_show r)
               (run_notes_show (repo_path (self st)) r) st.
Definition git_notes_add_ (msg : Json) (r : string) : M unit :=
  fun st => sh (git_notes_add_f_m msg r)
               (run_notes_add (repo_path (self st)) msg r) st.
Definition git_notes_remove_ (r : string) : M unit :=
  fun st => sh (git_notes_remove_ignore_missing r)
               (run_notes_remove (repo_path (self st)) r) st.

Definition lift_result {A} (r : result A) : M A := fun st => (st, r).

Definition get_active_refs : M (list (string * oid)) :=
  fun st => match active_refs (self st) with
            | Some refs => (st, Ok refs)
            | None => (st, Raise AttributeError)
            end.

Definition set_active_refs (refs : list (string * oid)) : M unit :=
  fun st => (cached st refs, Ok tt).

(** Storing a newly built object: its id is the next free one. *)
Definition new_object (o : RepoRef) : M oid :=
  fun st => (stored st o, Ok (length (heap st))).

(** Reading the object behind an id.  Ids come from [new_object], so the
    [SystemError] case is never reached by a run of the library. *)
Definition deref (o : oid) : M RepoRef :=
  fun st => match heap st !! o with
            | Some r => (st, Ok r)
            | None => (st, Raise SystemError)
            end.

(** [Repo.__init__] *)
Definition Repo_init (path : string) (push : bool) (w : G) : State :=
  {| world := w; log := []; heap := [];
     self := {| repo_path := path; remote_push := push; active_refs := None |} |}.

(** [Repo.__enter__] *)
Definition Repo_enter : M unit :=
  try_except
    (let! _ := git_rev_parse_ None in set_active_refs [])
    (except_ErrorReturnCode 128
       (fun st => (st, Raise (RepoDoesNotExistError (repo_path (self st)))))).

(** [RepoRef.__init__]: the object is stored only when construction
    returns; an object whose constructor raised is never referenced. *)
Definition RepoRef_init (r : string) : M oid :=
  let! loaded :=
    try_except
      (let! note_data := git_notes_show_ r in ret (Some note_data))
      (except_ErrorReturnCode 1 (ret None))   (* no note: return *) in
  match loaded with
  | None => new_object {| ref := r; note_kv := [] |}
  | Some note_data =>
      try_except
        (let! parsed := lift_result (json_loads note_data) in
         match parsed with
         | PyDict d => new_object {| ref := r; note_kv := d |}
         | _ => raise MalformedNoteDataError
         end)
        (except_JSONDecodeError (raise MalformedNoteDataError))
  end.

(** [Repo.__getitem__] *)
Definition Repo_getitem (key : string) : M oid :=
  try_except
    (let! result := git_rev_parse_ (Some key) in
     let r := strip result in
     let! refs := get_active_refs in
     match assoc_find refs r with
     | Some o => ret o
     | None =>
         let! repo_ref := RepoRef_init r in
         let! refs' := get_active_refs in
         let! _ := set_active_refs (assoc_store refs' r repo_ref) in
         ret repo_ref
     end)
    (except_ErrorReturnCode 128 (raise (GitReferenceDoesNotExistError key))).

(** The body of the loop of [Repo.__exit__], for the handle [repo_ref]. *)
Definition flush_one (repo_ref : RepoRef) : M unit :=
  match note_kv repo_ref with
  | _ :: _ =>
      let! msg := lift_result (json_dumps (PyDict (note_kv repo_ref))) in
      git_notes_add_ msg (ref repo_ref)
  | [] => git_notes_remove_ (ref repo_ref)
  end.

(** The loop of [Repo.__exit__] over [self.active_refs.values()]. *)
Fixpoint exit_loop (values : list oid) : M unit :=
  match values with
  | [] => ret tt
  | o :: rest =>
      let! repo_ref := deref o in
      let! _ := flush_one repo_ref in
      exit_loop rest
  end.

(** [Repo.__exit__] *)
Definition Repo_exit : M unit :=
  let! refs := get_active_refs in
  exit_loop (map snd refs).

(** A method call on the handle object [o]: the object is updated in
    place, so every holder of [o] sees the change. *)
Definition on_handle {A} (o : oid) (method : RepoRef -> RepoRef * result A)
  : M A :=
  fun st => match heap st !! o with
            | None => (st, Raise SystemError)
            | Some r =>
                let '(r', res) := method r in
                ({| world := world st; log := log st;
                    heap := <[o := r']> (heap st); self := self st |}, res)
            end.

(** [Repo.__delete__] *)
Definition Repo_delete (key : string) : M unit :=
  let! o := Repo_getitem key in
  on_handle o RepoRefOps.clear.

(** What a caller can do inside the [with] block: resolve a reference,
    call a method of a handle it holds, or use [Repo.__delete__]. *)
Inductive SessionOp : Type :=
| op_resolve (name : string)                      (* repo[name] *)
| op_getitem (o : oid) (key : PyVal)              (* handle[key] *)
| op_setitem (o : oid) (key value : PyVal)        (* handle[key] = value *)
| op_contains (o : oid) (key : PyVal)             (* key in handle *)
| op_delitem (o : oid) (key : PyVal)              (* del handle[key] *)
| op_get (o : oid) (key default : PyVal)          (* handle.get(key, default) *)
| op_clear (o : oid)                              (* handle.clear() *)
| op_delete (name : string).                      (* Repo.__delete__ *)

(** The state after an operation, whether it returned or raised. *)
Definition step (op : SessionOp) (st : State) : State :=
  match op with
  | op_resolve name => fst (Repo_getitem name st)
  | op_getitem o key => fst (on_handle o (fun h => RepoRefOps.getitem h key) st)
  | op_setitem o key value =>
      fst (on_handle o (fun h => RepoRefOps.setitem h key value) st)
  | op_contains o key => fst (on_handle o (fun h => RepoRefOps.contains h key) st)
  | op_delitem o key => fst (on_handle o (fun h => RepoRefOps.delitem h key) st)
  | op_get o key default =>
      fst (on_handle o (fun h => RepoRefOps.get h key default) st)
  | op_clear o => fst (on_handle o RepoRefOps.clear st)
  | op_delete name => fst (Repo_delete name st)
  end.

Definition run_ops (ops : list SessionOp) (st : State) : State :=
  fold_left (fun st op => step op st) ops st.




End Session.

Arguments State G : clear implicits.
Arguments M G A : clear implicits.

(** ** A reference collaborator

    A repository reduced to what the session observes: whether the path is
    a repository, what each reference expression resolves to, and the note
    attached to each object.  [rev-parse] prints the object name followed
    by a newline; [notes show] exits with code 1 when the object has no
    note; [notes add -f] overwrites; [notes remove --ignore-missing]
    succeeds whether or not a note is there. *)
Record SimpleGit : Type := mkSimpleGit {
  location : string;
  resolves : list (string * string);
  notes : list (string * NoteText)
}.

Definition newline : string := String (Ascii.ascii_of_nat 10) EmptyString.

#[export] Instance simple_git : GitTool SimpleGit := {|
  run_rev_parse path key g :=
    if negb (String.eqb path (location g)) then (g, ExitCode 128)
    else match key with
         | None => (g, Stdout "")
         | Some k =>
             match assoc_find (resolves g) k with
             | Some h => (g, Stdout (String.append h newline))
             | None => (g, ExitCode 128)
             end
         end;
  run_notes_show path r g :=
    if negb (String.eqb path (location g)) then (g, ExitCode 128)
    else match assoc_find (notes g) r with
         | Some n => (g, Stdout n)
         | None => (g, ExitCode 1)
         end;
  run_notes_add path msg r g :=
    if negb (String.eqb path (location g)) then (g, ExitCode 128)
    else ({| location := location g; resolves := resolves g;
             notes := assoc_store (notes g) r (JsonText msg) |}, Stdout tt);
  run_notes_remove path r g :=
    if negb (String.eqb path (location g)) then (g, ExitCode 128)
    else ({| location := location g; resolves := resolves g;
             notes := assoc_remove (notes g) r |}, Stdout tt)
|}.

(** * Vocabulary of the properties *)

(** ** Documents and JSON *)


(** No string occurs twice in [l]. *)
Fixpoint distinct (l : list string) : bool :=
  match l with
  | [] => true
  | x :: l' => negb (existsb (String.eqb x) l') && distinct l'
  end.

(** The values JSON represents natively: [None], booleans, integers,
    strings, lists of such values and dicts of such values.  A dict has
    each key once. *)
Fixpoint json_native (v : PyVal) : bool :=
  match v with
  | PyNone | PyBool _ | PyInt _ | PyStr _ => true
  | PyBytes _ | PyTuple _ => false
  | PyList l => forallb json_native l
  | PyDict d =>
      distinct (map fst d) && forallb (fun kv => json_native (snd kv)) d
  end.

(** The two loops inside [json_dumps], named. *)
Fixpoint dumps_items (l : list PyVal) : result (list Json) :=
  match l with
  | [] => Ok []
  | x :: l' =>
      match json_dumps x with
      | Raise e => Raise e
      | Ok j => match dumps_items l' with
                | Raise e => Raise e
                | Ok js => Ok (j :: js)
                end
      end
  end.

Fixpoint dumps_members (d : dict) : result (list (string * Json)) :=
  match d with
  | [] => Ok []
  | (k, x) :: d' =>
      match json_dumps x with
      | Raise e => Raise e
      | Ok j => match dumps_members d' with
                | Raise e => Raise e
                | Ok js => Ok ((k, j) :: js)
                end
      end
  end.

(** ** Commands of a close *)

(** The command that flushing one handle issues, following the wording of
    the specification: a non-empty document is serialised and
    force-written as the note of its reference, an empty one has its note
    removed with a missing note tolerated. *)
Definition flush_command (r : RepoRef) : result GitCmd :=
  match note_kv r with
  | [] => Ok (git_notes_remove_ignore_missing (ref r))
  | _ :: _ =>
      match json_dumps (PyDict (note_kv r)) with
      | Ok msg => Ok (git_notes_add_f_m msg (ref r))
      | Raise e => Raise e
      end
  end.

(** A [git push] command. *)
Definition is_push (c : GitCmd) : bool :=
  match c with git_push _ => true | _ => false end.

(** A command that writes the note text [{}]. *)
Definition writes_empty_object (c : GitCmd) : bool :=
  match c with git_notes_add_f_m (JObj []) _ => true | _ => false end.

(** The handles of [values] flushed so far issued exactly the commands
    [cmds], one each, in order. *)
Definition flushed (hp : list RepoRef) (values : list oid) (cmds : list GitCmd) : Prop :=
  Forall2 (fun o c => exists r, hp !! o = Some r /\ flush_command r = Ok c)
          values cmds.


(** The commands a call issued: what it appended to the log. *)
Definition issued {G A} (m : M G A) (st : State G) : list GitCmd :=
  drop (length (log st)) (log (fst (m st))).


(** The note that flushing the handle [h] leaves on its reference. *)
Definition note_after_flush (h : RepoRef) : option NoteText :=
  match note_kv h with
  | [] => None
  | _ :: _ =>
      match json_dumps (PyDict (note_kv h)) with
      | Ok j => Some (JsonText j)
      | Raise _ => None
      end
  end.

(** ** The cache *)

(** The reference of the object behind a handle id. *)
Definition ref_of (hp : list RepoRef) (o : oid) : string :=
  match hp !! o with Some h => ref h | None => "" end.

(** The cache is an identity map: its keys are distinct, and each key is
    the [ref] of the live object it maps to. *)
Definition cache_ok {G} (st : State G) : bool :=
  match active_refs (self st) with
  | None => true
  | Some refs =>
      distinct (map fst refs) &&
      forallb (fun ro => match heap st !! snd ro with
                         | Some h => String.eqb (ref h) (fst ro)
                         | None => false
                         end) refs
  end.

(** ** Sessions on the reference collaborator, used as test beds *)

Module Demo.

(** A repository with two commits; [main] is a branch on the first. *)
Definition repo_on_disk : SimpleGit :=
  {| location := "/srv/repo";
     resolves := [("main", "1f3a"); ("1f3a", "1f3a"); ("dev", "9c0e"); ("9c0e", "9c0e")];
     notes := [] |}.

(** The state left by running [m], whatever it returned. *)
Definition after {A} (m : M SimpleGit A) (st : State SimpleGit) : State SimpleGit :=
  fst (m st).

(** [with Repo('/srv/repo', remote_push=push) as repo:] on [g] *)
Definition opened (push : bool) (g : SimpleGit) : State SimpleGit :=
  after Repo_enter (Repo_init "/srv/repo" push g).

(** [repo['main']['build_status'] = 'passing'], then the block ends with
    push-on-close requested. *)
Definition one_write : State SimpleGit :=
  after (on_handle 0 (fun h => RepoRefOps.setitem h (PyStr "build_status") (PyStr "passing")))
    (after (Repo_getitem "main") (opened true repo_on_disk)).


(** The same repository with a note already on the second commit. *)
Definition repo_with_note : SimpleGit :=
  {| location := "/srv/repo";
     resolves := resolves repo_on_disk;
     notes := [("9c0e", JsonText (JObj [("old", JNum 1)]))] |}.

(** [repo['main']['build_status'] = 'passing'; repo['dev'].clear()] *)
Definition write_and_clear : State SimpleGit :=
  after (on_handle 1 RepoRefOps.clear)
    (after (Repo_getitem "dev")
       (after (on_handle 0 (fun h => RepoRefOps.setitem h (PyStr "build_status") (PyStr "passing")))
          (after (Repo_getitem "main") (opened false repo_with_note)))).



End Demo.

(** A collaborator whose [git notes show] always ends with the given exit
    code and which otherwise resolves every name to itself. *)
Definition notes_show_fails : GitTool Z := {|
  run_rev_parse path key code := (code, Stdout (match key with Some k => k | None => "" end));
  run_notes_show path r code := (code, ExitCode code);
  run_notes_add path msg r code := (code, Stdout tt);
  run_notes_remove path r code := (code, Stdout tt)
|}.

(** Every handle of [values] is a live object whose document
    [json.dumps] accepts. *)
Definition all_serialisable (hp : list RepoRef) (values : list oid) : bool :=
  forallb (fun o => match hp !! o with
                    | Some h => is_ok (json_dumps (PyDict (note_kv h)))
                    | None => false
                    end) values.



(** * Properties *)

(** ** Dictionary operations on a handle *)

Module HandleFacts.
Import RepoRefOps.

Lemma getitem_keeps_document (self : RepoRef) (key : PyVal) :
  fst (getitem self key) = self.
Proof. unfold getitem. by destruct (isinstance_str key). Qed.

(** [get] and [set] with a key that is not a [str] raise [ValueError]
    and leave the handle as it was. *)
Lemma getitem_type_guard (self : RepoRef) (key : PyVal) :
  isinstance_str key = false ->
  getitem self key = (self, Raise ValueError).
Proof. unfold getitem. by intros ->. Qed.

Lemma setitem_type_guard (self : RepoRef) (key value : PyVal) :
  isinstance_str key = false ->
  setitem self key value = (self, Raise ValueError).
Proof. by destruct key. Qed.

Lemma get_type_guard (self : RepoRef) (key default : PyVal) :
  isinstance_str key = false ->
  get self key default = (self, Raise ValueError).
Proof. intros Hk. unfold get. by rewrite getitem_type_guard. Qed.

(** A failed [del] leaves the handle as it was. *)
Lemma delitem_raise_keeps_document (self self' : RepoRef) (key : PyVal) (e : PyExc) :
  delitem self key = (self', Raise e) -> self' = self.
Proof.
  unfold delitem. destruct (dict_delitem _ _); intros [= <-]; done.
Qed.

(** [del] with a key that is not a [str] never raises [ValueError]: it
    raises [TypeError] for an unhashable key and [KeyError] otherwise. *)
Lemma delitem_non_string (self : RepoRef) (key : PyVal) :
  isinstance_str key = false ->
  delitem self key
  = (self, Raise (if hashable key then KeyError key else TypeError)).
Proof.
  intros Hk. unfold delitem, dict_delitem.
  destruct (hashable key); simpl; [|done].
  by destruct key.
Qed.

End HandleFacts.

(** C2 (the code departs from the claim).  The claim asks [get], [set] and
    [delete] with a non-string key to raise the key-type error and to leave
    the document unchanged.  [__getitem__] and [__setitem__] do so
    ([ValueError]); [__delitem__] has no such guard: deleting the integer
    key 1 raises [KeyError], deleting a list key raises [TypeError].  The
    document is unchanged in all these calls. *)
Theorem C2_delitem_lacks_type_guard :
  let h := {| ref := "abc"; note_kv := [("a", PyInt 1)] |} in
  RepoRefOps.getitem h (PyInt 1) = (h, Raise ValueError) /\
  RepoRefOps.setitem h (PyInt 1) PyNone = (h, Raise ValueError) /\
  RepoRefOps.get h (PyInt 1) PyNone = (h, Raise ValueError) /\
  RepoRefOps.delitem h (PyInt 1) = (h, Raise (KeyError (PyInt 1))) /\
  RepoRefOps.delitem h (PyList []) = (h, Raise TypeError).
Proof. repeat split. Qed.

(** C4, as stated, fails: the membership test hashes the key, and a list
    key cannot be hashed, so [[] in handle] raises [TypeError]. *)
Lemma C4_contains_raises_on_unhashable_key :
  ~ (forall (self : RepoRef) (key : PyVal),
        exists b : bool, snd (RepoRefOps.contains self key) = Ok b).
Proof.
  intros Hall.
  destruct (Hall {| ref := "abc"; note_kv := [] |} (PyList [])) as [b Hb].
  discriminate Hb.
Qed.

(** C4 (amended).  For every hashable key, [Contains] returns a boolean
    without raising and leaves the handle as it was; for every hashable
    key that is not a string it returns [false]; for a string key it tells
    whether the key is in the document. *)
Theorem C4_contains_hashable (self : RepoRef) (key : PyVal) :
  hashable key = true ->
  fst (RepoRefOps.contains self key) = self /\
  (exists b : bool, snd (RepoRefOps.contains self key) = Ok b) /\
  (isinstance_str key = false -> snd (RepoRefOps.contains self key) = Ok false) /\
  (forall k, key = PyStr k ->
     snd (RepoRefOps.contains self key)
     = Ok (bool_decide (is_Some (dict_find (note_kv self) k)))).
Proof.
  intros Hh. unfold RepoRefOps.contains, dict_contains. simpl. rewrite Hh. simpl.
  repeat split.
  - destruct key; eauto.
  - by destruct key.
  - by intros k ->.
Qed.

Lemma C4_contains_hashable_witness :
  snd (RepoRefOps.contains {| ref := "abc"; note_kv := [("a", PyInt 1)] |}
         (PyTuple [PyInt 1; PyStr "a"])) = Ok false.
Proof.
  apply (C4_contains_hashable {| ref := "abc"; note_kv := [("a", PyInt 1)] |}
           (PyTuple [PyInt 1; PyStr "a"])); reflexivity.
Defined.

(** ** What closing a session does *)

Section SessionFacts.

Context {G : Type} `{GitTool G}.
Implicit Types (st : State G).

Lemma sh_inv {A} (cmd : GitCmd) (run : G -> G * Finished A) st st' (res : result A) :
  sh cmd run st = (st', res) ->
  heap st' = heap st /\ self st' = self st /\ log st' = log st ++ [cmd] /\
  world st' = fst (run (world st)) /\
  res = match snd (run (world st)) with
        | Stdout out => Ok out
        | ExitCode code => Raise (ErrorReturnCode code)
        end.
Proof.
  unfold sh. destruct (snd (run (world st))) as [out|code]; intros [= <- <-]; done.
Qed.

Lemma flush_command_not_push (r : RepoRef) (c : GitCmd) :
  flush_command r = Ok c -> is_push c = false /\ writes_empty_object c = false.
Proof.
  unfold flush_command. destruct (note_kv r) as [|[k v] d] eqn:Hd.
  - intros [= <-]. done.
  - destruct (json_dumps _) as [msg|e] eqn:Hj; intros [= <-]. split; [done|].
    simpl in Hj. repeat case_match; by simplify_eq.
Qed.

Lemma flushed_no_push hp values cmds :
  flushed hp values cmds ->
  Forall (fun c => is_push c = false /\ writes_empty_object c = false) cmds.
Proof.
  induction 1 as [|o c values cmds (r & _ & Hc) _ IH]; constructor; [|done].
  by eapply flush_command_not_push.
Qed.

Lemma exit_loop_cons (o : oid) (rest : list oid) :
  exit_loop (o :: rest)
  = bind (deref o) (fun r => bind (flush_one r) (fun _ => exit_loop rest)).
Proof. reflexivity. Qed.

(** A turn of the loop either issues the handle's command, or raises
    before issuing anything because the document cannot be serialised. *)
Lemma flush_one_inv (r : RepoRef) st st' (res : result unit) :
  flush_one r st = (st', res) ->
  heap st' = heap st /\ self st' = self st /\
  ((exists c, flush_command r = Ok c /\ log st' = log st ++ [c]) \/
   (exists e, flush_command r = Raise e /\ res = Raise e /\ st' = st)).
Proof.
  unfold flush_one, flush_command.
  destruct (note_kv r) as [|kv d] eqn:Hd.
  - unfold git_notes_remove_. intros Hsh. apply sh_inv in Hsh as (?&?&?&?&?).
    repeat split; try done. left. eauto.
  - unfold bind, lift_result.
    destruct (json_dumps _) as [msg|e].
    + unfold git_notes_add_. intros Hsh. apply sh_inv in Hsh as (?&?&?&?&?).
      repeat split; try done. left. eauto.
    + intros [= <- <-]. repeat split; try done. right. eauto.
Qed.

(** The loop of [__exit__]: commands are issued handle by handle in the
    order of [values]; the loop stops at the first turn that raises. *)
Lemma exit_loop_inv (values : list oid) st st' (res : result unit) :
  exit_loop values st = (st', res) ->
  heap st' = heap st /\ self st' = self st /\
  match res with
  | Ok _ =>
      exists cmds, log st' = log st ++ cmds /\ flushed (heap st) values cmds
  | Raise e =>
      exists done o rest cmds attempt,
        values = done ++ o :: rest /\
        flushed (heap st) done cmds /\
        log st' = log st ++ cmds ++ attempt /\
        (attempt = [] \/
         exists r c, heap st !! o = Some r /\ flush_command r = Ok c /\
                     attempt = [c])
  end.
Proof.
  revert st. induction values as [|o rest IH]; intros st.
  - intros [= <- <-]. repeat split; try done.
    exists []. rewrite app_nil_r. split; [done|constructor].
  - rewrite exit_loop_cons. unfold bind at 1. unfold deref.
    destruct (heap st !! o) as [r|] eqn:Ho.
    + unfold bind. destruct (flush_one r st) as [st1 [[]|e]] eqn:H1.
      * apply flush_one_inv in H1 as (Hh1 & Hs1 & [(c & Hc & Hl1)|(e & _ & ? & _)]);
          [|done].
        intros Hrest. apply IH in Hrest as (Hh & Hs & Hres).
        rewrite Hh1 in Hh, Hres. rewrite Hs1 in Hs. rewrite Hl1 in Hres.
        repeat split; try done.
        destruct res as [[]|e].
        -- destruct Hres as (cmds & Hl & Hf). exists (c :: cmds).
           rewrite Hl, <- app_assoc. split; [done|].
           constructor; eauto.
        -- destruct Hres as (dn & o' & rest' & cmds & att & -> & Hf & Hl & Hatt).
           exists (o :: dn), o', rest', (c :: cmds), att.
           rewrite Hl, <- !app_assoc. repeat split; try done.
           constructor; eauto.
      * intros [= <- <-].
        apply flush_one_inv in H1 as (Hh1 & Hs1 & Hcase).
        repeat split; try done.
        exists [], o, rest, [].
        destruct Hcase as [(c & Hc & Hl1)|(e' & _ & _ & ->)].
        -- exists [c]. repeat split; try done; [constructor|]. right. eauto.
        -- exists []. rewrite !app_nil_r. repeat split; try done; [constructor|]. by left.
    + intros [= <- <-]. repeat split; try done.
      exists [], o, rest, [], []. rewrite !app_nil_r.
      repeat split; try done; [constructor|]. by left.
Qed.

End SessionFacts.

Section CloseFacts.

Context {G : Type} `{GitTool G}.
Implicit Types (st : State G).

Lemma Repo_exit_unfold st (refs : list (string * oid)) :
  active_refs (self st) = Some refs ->
  Repo_exit st = exit_loop (map snd refs) st.
Proof. intros Hr. unfold Repo_exit, bind, get_active_refs. by rewrite Hr. Qed.

Lemma Repo_exit_not_entered st :
  active_refs (self st) = None -> Repo_exit st = (st, Raise AttributeError).
Proof. intros Hr. unfold Repo_exit, bind, get_active_refs. by rewrite Hr. Qed.

(** Nothing that [__exit__] issues is a push, and nothing it issues
    writes the text [{}]; this holds whether or not it raises. *)
Lemma Repo_exit_commands st st' (res : result unit) :
  Repo_exit st = (st', res) ->
  exists cmds, log st' = log st ++ cmds /\
    Forall (fun c => is_push c = false /\ writes_empty_object c = false) cmds.
Proof.
  destruct (active_refs (self st)) as [refs|] eqn:Hr.
  - rewrite (Repo_exit_unfold _ _ Hr). intros Hl.
    apply exit_loop_inv in Hl as (_ & _ & Hres). destruct res as [[]|e].
    + destruct Hres as (cmds & Hl & Hf). exists cmds. split; [done|].
      by eapply flushed_no_push.
    + destruct Hres as (dn & o & rest & cmds & att & _ & Hf & Hl & Hatt).
      exists (cmds ++ att). split; [done|].
      apply Forall_app. split; [by eapply flushed_no_push|].
      destruct Hatt as [->|(r & c & _ & Hc & ->)]; [constructor|].
      constructor; [|constructor]. by eapply flush_command_not_push.
  - rewrite Repo_exit_not_entered by done. intros [= <- <-].
    exists []. by rewrite app_nil_r.
Qed.

End CloseFacts.

(** C1 (the code departs from the claim).  The session of [Demo.one_write]
    was opened with [remote_push=True] and holds one handle with a
    document.  Closing it succeeds, writes the note, and issues no push:
    [__exit__] never reads [self.remote_push]. *)
Theorem C1_close_with_push_enabled_issues_no_push :
  remote_push (self Demo.one_write) = true /\
  snd (Repo_exit Demo.one_write) = Ok tt /\
  issued Repo_exit Demo.one_write
  = [git_notes_add_f_m (JObj [("build_status", JStr "passing")]) "1f3a"] /\
  existsb is_push (log (fst (Repo_exit Demo.one_write))) = false.
Proof. repeat split. Qed.






(** The session of [Demo.write_and_clear], closed: the written document
    becomes the note of the first commit, the note of the second commit is
    gone. *)
Example close_write_and_clear :
  issued Repo_exit Demo.write_and_clear
  = [git_notes_add_f_m (JObj [("build_status", JStr "passing")]) "1f3a";
     git_notes_remove_ignore_missing "9c0e"] /\
  notes (world (fst (Repo_exit Demo.write_and_clear)))
  = [("1f3a", JsonText (JObj [("build_status", JStr "passing")]))].
Proof. split; reflexivity. Qed.

(** ** Loading a handle and resolving a reference *)

Section ResolveFacts.

Context {G : Type} `{GitTool G}.
Implicit Types (st : State G).

(** [RepoRef.__init__] case by case on how [git notes show] ended. *)
Lemma RepoRef_init_eq (r : string) st :
  RepoRef_init r st
  = let st1 := logged st (fst (run_notes_show (repo_path (self st)) r (world st)))
                 (git_notes_show r) in
    match snd (run_notes_show (repo_path (self st)) r (world st)) with
    | ExitCode code =>
        if Z.eqb code 1
        then (stored st1 {| ref := r; note_kv := [] |}, Ok (length (heap st)))
        else (st1, Raise (ErrorReturnCode code))
    | Stdout note_data =>
        match json_loads note_data with
        | Ok (PyDict d) =>
            (stored st1 {| ref := r; note_kv := d |}, Ok (length (heap st)))
        | _ => (st1, Raise MalformedNoteDataError)
        end
    end.
Proof.
  unfold RepoRef_init, bind, try_except, git_notes_show_, sh, ret. simpl.
  destruct (snd (run_notes_show _ _ _)) as [note_data|code]; simpl.
  - unfold lift_result, new_object, raise.
    destruct note_data as [text|j]; simpl; [reflexivity|].
    destruct (json_decode j); reflexivity.
  - destruct (Z.eqb code 1); reflexivity.
Qed.

(** [Repo.__getitem__] case by case: how [git rev-parse] ended, whether
    the resolved reference is cached, how the load ended. *)
Lemma Repo_getitem_eq (key : string) st :
  Repo_getitem key st
  = let st1 := logged st (fst (run_rev_parse (repo_path (self st)) (Some key) (world st)))
                 (git_rev_parse (Some key)) in
    match snd (run_rev_parse (repo_path (self st)) (Some key) (world st)) with
    | ExitCode code =>
        (st1, Raise (if Z.eqb code 128 then GitReferenceDoesNotExistError key
                     else ErrorReturnCode code))
    | Stdout result =>
        match active_refs (self st) with
        | None => (st1, Raise AttributeError)
        | Some refs =>
            match assoc_find refs (strip result) with
            | Some o => (st1, Ok o)
            | None =>
                match RepoRef_init (strip result) st1 with
                | (st2, Ok o) => (cached st2 (assoc_store refs (strip result) o), Ok o)
                | (st2, Raise (ErrorReturnCode code)) =>
                    (st2, Raise (if Z.eqb code 128
                                 then GitReferenceDoesNotExistError key
                                 else ErrorReturnCode code))
                | (st2, Raise e) => (st2, Raise e)
                end
            end
        end
    end.
Proof.
  unfold Repo_getitem, try_except, bind at 1. unfold git_rev_parse_, sh. simpl.
  destruct (snd (run_rev_parse _ _ _)) as [result|code]; simpl.
  - unfold bind at 1. unfold get_active_refs at 1. simpl.
    destruct (active_refs (self st)) as [refs|] eqn:Hrefs; simpl; [|done].
    destruct (assoc_find refs (strip result)) as [o|]; simpl; [done|].
    unfold bind at 1.
    match goal with |- context [RepoRef_init ?r ?s] =>
      pose proof (RepoRef_init_eq r s) as Hinit;
      destruct (RepoRef_init r s) as [st2 [o|e]] eqn:Hi end.
    + assert (active_refs (self st2) = Some refs) as Hrefs2.
      { cbv zeta in Hinit.
        repeat case_match; simplify_eq; simpl; done. }
      unfold bind, get_active_refs, set_active_refs, ret. rewrite Hrefs2. done.
    + simpl. destruct e; simpl; try done. by destruct (Z.eqb code 128).
  - by destruct (Z.eqb code 128).
Qed.

End ResolveFacts.

Section AssocFacts.

Context {V : Type}.
Implicit Types (d : list (string * V)) (k : string).

Lemma assoc_find_app d d' k :
  assoc_find (d ++ d') k
  = match assoc_find d k with Some v => Some v | None => assoc_find d' k end.
Proof.
  induction d as [|[k' v'] d IH]; simpl; [done|].
  by destruct (String.eqb k' k).
Qed.

Lemma assoc_find_None_keys d k :
  assoc_find d k = None -> existsb (String.eqb k) (map fst d) = false.
Proof.
  induction d as [|[k' v'] d IH]; simpl; [done|].
  rewrite (String.eqb_sym k k'). destruct (String.eqb k' k); [done|]. exact IH.
Qed.

Lemma assoc_find_Some_In d k v : assoc_find d k = Some v -> In (k, v) d.
Proof.
  induction d as [|[k' v'] d IH]; simpl; [done|].
  destruct (String.eqb k' k) eqn:Hk.
  - apply String.eqb_eq in Hk as ->. intros [= ->]. by left.
  - intros Hf. right. by apply IH.
Qed.

Lemma assoc_store_absent d k v :
  assoc_find d k = None -> assoc_store d k v = d ++ [(k, v)].
Proof.
  induction d as [|[k' v'] d IH]; simpl; [done|].
  destruct (String.eqb k' k); [done|]. intros Hf. by rewrite IH.
Qed.

Lemma assoc_find_store_eq d k v : assoc_find (assoc_store d k v) k = Some v.
Proof.
  induction d as [|[k' v'] d IH]; simpl.
  - by rewrite String.eqb_refl.
  - destruct (String.eqb k' k) eqn:Hk; simpl; by rewrite Hk.
Qed.

Lemma assoc_find_store_ne d k k' v :
  k <> k' -> assoc_find (assoc_store d k v) k' = assoc_find d k'.
Proof.
  intros Hne. induction d as [|[k0 v0] d IH]; simpl.
  - by apply String.eqb_neq in Hne as ->.
  - destruct (String.eqb k0 k) eqn:Hk; simpl; [|by rewrite IH].
    apply String.eqb_eq in Hk as ->. by apply String.eqb_neq in Hne as ->.
Qed.

Lemma assoc_find_remove_eq d k : assoc_find (assoc_remove d k) k = None.
Proof.
  induction d as [|[k0 v0] d IH]; simpl; [done|].
  destruct (String.eqb k0 k) eqn:Hk; [done|]. simpl. by rewrite Hk.
Qed.

Lemma assoc_find_remove_ne d k k' :
  k <> k' -> assoc_find (assoc_remove d k) k' = assoc_find d k'.
Proof.
  intros Hne. induction d as [|[k0 v0] d IH]; simpl; [done|].
  destruct (String.eqb k0 k) eqn:Hk; simpl; [|by rewrite IH].
  apply String.eqb_eq in Hk as ->. by apply String.eqb_neq in Hne as ->.
Qed.

Lemma distinct_snoc (l : list string) (x : string) :
  distinct l = true -> existsb (String.eqb x) l = false ->
  distinct (l ++ [x]) = true.
Proof.
  induction l as [|y l IH]; simpl; [done|].
  intros [Hy Hl]%andb_prop [Hxy Hx]%orb_false_elim.
  apply andb_true_intro. split; [|by apply IH].
  rewrite existsb_app. simpl. rewrite String.eqb_sym, Hxy.
  apply negb_true_iff in Hy. by rewrite Hy.
Qed.

End AssocFacts.




(** C9.  When [git notes show] reports that the reference has no note
    (exit code 1), constructing the handle succeeds and the new handle
    holds the empty document. *)
Theorem C9_missing_note_gives_empty_document {G : Type} `{GitTool G}
    (st : State G) (r : string) :
  snd (run_notes_show (repo_path (self st)) r (world st)) = ExitCode 1 ->
  exists o, snd (RepoRef_init r st) = Ok o /\
            heap (fst (RepoRef_init r st)) !! o = Some {| ref := r; note_kv := [] |}.
Proof.
  intros Hshow. rewrite RepoRef_init_eq. cbv zeta. rewrite Hshow. simpl.
  exists (length (heap st)). split; [done|].
  by rewrite lookup_app_r, Nat.sub_diag.
Qed.

Lemma C9_missing_note_gives_empty_document_witness :
  let st := Demo.opened false Demo.repo_on_disk in
  exists o, snd (RepoRef_init "1f3a" st) = Ok o /\
            heap (fst (RepoRef_init "1f3a" st)) !! o
            = Some {| ref := "1f3a"; note_kv := [] |}.
Proof.
  intros st. apply (C9_missing_note_gives_empty_document st "1f3a"). reflexivity.
Defined.

Section ResolveTheorems.

Context {G : Type} `{GitTool G}.
Implicit Types (st : State G).

Lemma RepoRef_init_inv (r : string) st st' (res : result oid) :
  RepoRef_init r st = (st', res) ->
  self st' = self st /\ log st' = log st ++ [git_notes_show r] /\
  match res with
  | Ok o => o = length (heap st) /\
            exists d, heap st' = heap st ++ [{| ref := r; note_kv := d |}]
  | Raise _ => heap st' = heap st
  end.
Proof.
  rewrite RepoRef_init_eq. cbv zeta.
  destruct (snd (run_notes_show _ _ _)) as [note_data|code].
  - destruct (json_loads note_data) as [[]|]; intros [= <- <-]; simpl; eauto.
  - destruct (Z.eqb code 1); intros [= <- <-]; simpl; eauto.
Qed.

Lemma issued_app {A} (m : M G A) st (cmds : list GitCmd) :
  log (fst (m st)) = log st ++ cmds -> issued m st = cmds.
Proof. intros Hl. unfold issued. rewrite Hl. apply drop_app_length. Qed.

(** A failed resolve leaves the [Repo] object and the heap as they were. *)
Lemma Repo_getitem_raise (key : string) st st' (e : PyExc) :
  Repo_getitem key st = (st', Raise e) ->
  self st' = self st /\ heap st' = heap st.
Proof.
  rewrite Repo_getitem_eq. cbv zeta.
  destruct (snd (run_rev_parse _ _ _)) as [result|code]; [|by intros [= <- <-]].
  destruct (active_refs (self st)) as [refs|]; [|by intros [= <- <-]].
  destruct (assoc_find refs (strip result)) as [o|]; [by intros [= <- <-]|].
  destruct (RepoRef_init _ _) as [st2 [o|e2]] eqn:Hinit; [done|].
  apply RepoRef_init_inv in Hinit as (Hs & _ & Hh). simpl in Hs, Hh.
  destruct e2; by intros [= <- <-].
Qed.

(** Resolving a name whose reference is not cached attempts a load. *)
Lemma Repo_getitem_uncached (key result : string) st (refs : list (string * oid)) :
  snd (run_rev_parse (repo_path (self st)) (Some key) (world st)) = Stdout result ->
  active_refs (self st) = Some refs ->
  assoc_find refs (strip result) = None ->
  issued (Repo_getitem key) st
  = [git_rev_parse (Some key); git_notes_show (strip result)].
Proof.
  intros Hrev Hrefs Hfind. apply issued_app.
  rewrite Repo_getitem_eq. cbv zeta. rewrite Hrev, Hrefs, Hfind.
  destruct (RepoRef_init _ _) as [st2 [o|e2]] eqn:Hinit;
    apply RepoRef_init_inv in Hinit as (_ & Hl & _); simpl in Hl.
  - simpl. by rewrite Hl, <- app_assoc.
  - destruct e2; simpl; by rewrite Hl, <- app_assoc.
Qed.

End ResolveTheorems.

(** C10.  When a resolve raises, the [Repo] object (with its cache) and
    every handle object are exactly as before, so the session and its
    other handles remain usable.  When the failure came from constructing
    the handle, the resolved reference is still absent from the cache, and
    resolving the same name again, if it resolves to the same reference,
    runs [git notes show] on it again. *)
Theorem C10_failed_resolve_leaves_cache {G : Type} `{GitTool G}
    (st st' : State G) (key : string) (e : PyExc) :
  Repo_getitem key st = (st', Raise e) ->
  self st' = self st /\ heap st' = heap st /\
  (forall out refs,
      snd (run_rev_parse (repo_path (self st)) (Some key) (world st)) = Stdout out ->
      active_refs (self st) = Some refs ->
      assoc_find refs (strip out) = None /\
      forall out',
        snd (run_rev_parse (repo_path (self st')) (Some key) (world st')) = Stdout out' ->
        strip out' = strip out ->
        issued (Repo_getitem key) st'
        = [git_rev_parse (Some key); git_notes_show (strip out)]).
Proof.
  intros Hget. pose proof (Repo_getitem_raise _ _ _ _ Hget) as [Hs Hh].
  split; [done|]. split; [done|]. intros out refs Hrev Hrefs.
  assert (assoc_find refs (strip out) = None) as Hfind.
  { revert Hget. rewrite Repo_getitem_eq. cbv zeta. rewrite Hrev, Hrefs.
    by destruct (assoc_find refs (strip out)). }
  split; [done|]. intros out' Hrev' Hsame. rewrite <- Hsame.
  eapply Repo_getitem_uncached; [done| by rewrite Hs |]. by rewrite Hsame.
Qed.

Lemma C10_failed_resolve_leaves_cache_witness :
  let st := Demo.after (Repo_getitem "main")
              (Demo.opened false
                 {| location := "/srv/repo";
                    resolves := resolves Demo.repo_on_disk;
                    notes := [("9c0e", NotJson "build: passing")] |}) in
  let st' := fst (Repo_getitem "dev" st) in
  self st' = self st /\ heap st' = heap st /\
  (forall out refs,
      snd (run_rev_parse (repo_path (self st)) (Some "dev") (world st)) = Stdout out ->
      active_refs (self st) = Some refs ->
      assoc_find refs (strip out) = None /\
      forall out',
        snd (run_rev_parse (repo_path (self st')) (Some "dev") (world st')) = Stdout out' ->
        strip out' = strip out ->
        issued (Repo_getitem "dev") st'
        = [git_rev_parse (Some "dev"); git_notes_show (strip out)]).
Proof.
  intros st st'.
  exact (C10_failed_resolve_leaves_cache st st' "dev" MalformedNoteDataError eq_refl).
Defined.

Section CacheFacts.

Context {G : Type} `{GitTool G}.
Implicit Types (st : State G).

Lemma cache_ok_same st st' :
  self st' = self st -> heap st' = heap st -> cache_ok st' = cache_ok st.
Proof. unfold cache_ok. by intros -> ->. Qed.

Lemma cache_ok_lookup st (refs : list (string * oid)) (r : string) (o : oid) :
  cache_ok st = true ->
  active_refs (self st) = Some refs ->
  assoc_find refs r = Some o ->
  exists h, heap st !! o = Some h /\ ref h = r.
Proof.
  unfold cache_ok. intros Hok Hrefs Hfind. rewrite Hrefs in Hok.
  apply andb_prop in Hok as [_ Hall].
  rewrite forallb_forall in Hall.
  specialize (Hall _ (assoc_find_Some_In _ _ _ Hfind)). simpl in Hall.
  destruct (heap st !! o) as [h|]; [|done].
  exists h. split; [done|]. by apply String.eqb_eq.
Qed.

(** What a successful resolve returns is cached under the resolved
    reference, and the objects that existed before are untouched. *)
Lemma Repo_getitem_ok (key : string) st st' (o : oid) :
  Repo_getitem key st = (st', Ok o) ->
  exists out refs refs',
    snd (run_rev_parse (repo_path (self st)) (Some key) (world st)) = Stdout out /\
    active_refs (self st) = Some refs /\
    active_refs (self st') = Some refs' /\
    assoc_find refs' (strip out) = Some o /\
    match assoc_find refs (strip out) with
    | Some o' => o' = o /\ refs' = refs /\ heap st' = heap st /\ self st' = self st
    | None => o = length (heap st) /\ refs' = refs ++ [(strip out, o)] /\
              exists d, heap st' = heap st ++ [{| ref := strip out; note_kv := d |}]
    end.
Proof.
  rewrite Repo_getitem_eq. cbv zeta.
  destruct (snd (run_rev_parse _ _ _)) as [out|code]; [|done].
  destruct (active_refs (self st)) as [refs|] eqn:Hrefs; [|done].
  destruct (assoc_find refs (strip out)) as [o'|] eqn:Hfind.
  - intros [= <- <-]. exists out, refs, refs. simpl. rewrite Hfind. by repeat split.
  - destruct (RepoRef_init _ _) as [st2 [o2|e2]] eqn:Hinit; [|by destruct e2].
    apply RepoRef_init_inv in Hinit as (Hs & _ & -> & d & Hh). simpl in Hh.
    intros [= <- <-]. exists out, refs, (refs ++ [(strip out, length (heap st))]).
    simpl. rewrite (assoc_store_absent _ _ _ Hfind).
    rewrite Hfind, assoc_find_app, Hfind. simpl. rewrite String.eqb_refl.
    repeat split; eauto.
Qed.

(** Resolving keeps the cache an identity map. *)
Lemma cache_ok_getitem (key : string) st :
  cache_ok st = true -> cache_ok (fst (Repo_getitem key st)) = true.
Proof.
  intros Hok. destruct (Repo_getitem key st) as [st' [o|e]] eqn:Hget; simpl.
  - apply Repo_getitem_ok in Hget as (out & refs & refs' & _ & Hrefs & Hrefs' & _ & Hcase).
    destruct (assoc_find refs (strip out)) as [o'|] eqn:Hfind.
    + destruct Hcase as (_ & -> & Hh & _). unfold cache_ok in *.
      rewrite Hrefs in Hok. by rewrite Hrefs', Hh.
    + destruct Hcase as (-> & -> & d & Hh). unfold cache_ok in *.
      rewrite Hrefs in Hok. rewrite Hrefs', Hh.
      apply andb_prop in Hok as [Hd Hall]. apply andb_true_intro. split.
      * rewrite map_app. simpl. apply distinct_snoc; [done|].
        by apply assoc_find_None_keys.
      * rewrite forallb_app. apply andb_true_intro. split.
        -- rewrite forallb_forall in Hall. apply forallb_forall.
           intros [r o] Hin. specialize (Hall _ Hin). simpl in *.
           destruct (heap st !! o) as [h|] eqn:Ho; [|done].
           by rewrite (lookup_app_l_Some _ _ _ _ Ho).
        -- simpl. rewrite lookup_app_r, Nat.sub_diag by done. simpl.
           by rewrite String.eqb_refl.
  - apply Repo_getitem_raise in Hget as [Hs Hh]. by rewrite (cache_ok_same _ _ Hs Hh).
Qed.

(** A method call that keeps [self.ref] keeps the cache an identity map;
    every method of [RepoRef] keeps [self.ref]. *)
Lemma cache_ok_on_handle {A} (o : oid) (method : RepoRef -> RepoRef * result A) st :
  (forall h, ref (fst (method h)) = ref h) ->
  cache_ok st = true -> cache_ok (fst (on_handle o method st)) = true.
Proof.
  intros Hm Hok. unfold on_handle. destruct (heap st !! o) as [h|] eqn:Ho; [|done].
  specialize (Hm h). destruct (method h) as [h' res]. simpl in *.
  unfold cache_ok in *. simpl. destruct (active_refs (self st)) as [refs|]; [|done].
  apply andb_prop in Hok as [Hd Hall]. apply andb_true_intro. split; [done|].
  rewrite forallb_forall in Hall. apply forallb_forall.
  intros [r o0] Hin. specialize (Hall _ Hin). simpl in *.
  destruct (decide (o0 = o)) as [->|Hne].
  - rewrite list_lookup_insert_eq by (by eapply lookup_lt_Some).
    rewrite Ho in Hall. by rewrite Hm.
  - by rewrite list_lookup_insert_ne.
Qed.

Lemma cache_ok_enter st :
  cache_ok st = true -> cache_ok (fst (Repo_enter st)) = true.
Proof.
  intros Hok. unfold Repo_enter, try_except, bind, git_rev_parse_, sh.
  destruct (snd (run_rev_parse _ _ _)) as [out|code]; simpl; [done|].
  by destruct (Z.eqb code 128).
Qed.

Lemma cache_ok_init (path : string) (push : bool) (w : G) :
  cache_ok (Repo_init path push w) = true.
Proof. reflexivity. Qed.

Lemma cache_ok_exit st : cache_ok (fst (Repo_exit st)) = cache_ok st.
Proof.
  destruct (active_refs (self st)) as [refs|] eqn:Hr.
  - rewrite (Repo_exit_unfold _ _ Hr).
    destruct (exit_loop (map snd refs) st) as [st' res] eqn:Hl.
    apply exit_loop_inv in Hl as (Hh & Hs & _). by apply cache_ok_same.
  - by rewrite Repo_exit_not_entered.
Qed.

Lemma on_handle_self {A} (o : oid) (method : RepoRef -> RepoRef * result A) st :
  self (fst (on_handle o method st)) = self st.
Proof.
  unfold on_handle. destruct (heap st !! o); [|done]. by destruct (method _).
Qed.

(** A resolve never drops or changes a binding of the cache. *)
Lemma Repo_getitem_keeps_binding (key r : string) (o : oid) st
    (refs : list (string * oid)) :
  active_refs (self st) = Some refs ->
  assoc_find refs r = Some o ->
  exists refs', active_refs (self (fst (Repo_getitem key st))) = Some refs' /\
                assoc_find refs' r = Some o.
Proof.
  intros Hrefs Hfind.
  destruct (Repo_getitem key st) as [st' [o'|e]] eqn:Hget; simpl.
  - apply Repo_getitem_ok in Hget
      as (out & refs0 & refs' & _ & Hrefs0 & Hrefs' & _ & Hcase).
    rewrite Hrefs in Hrefs0. injection Hrefs0 as <-.
    exists refs'. split; [done|].
    destruct (assoc_find refs (strip out)) as [o0|].
    + by destruct Hcase as (_ & -> & _).
    + destruct Hcase as (_ & -> & _). by rewrite assoc_find_app, Hfind.
  - apply Repo_getitem_raise in Hget as [Hs _]. exists refs. by rewrite Hs.
Qed.

Lemma Repo_delete_state (name : string) st :
  fst (Repo_delete name st)
  = match Repo_getitem name st with
    | (st', Ok o) => fst (on_handle o RepoRefOps.clear st')
    | (st', Raise _) => st'
    end.
Proof.
  unfold Repo_delete, bind. by destruct (Repo_getitem name st) as [st' [o|e]].
Qed.

Lemma step_cache_ok (op : SessionOp) st :
  cache_ok st = true -> cache_ok (step op st) = true.
Proof.
  intros Hok. destruct op; simpl;
    try (apply cache_ok_on_handle; [|done]; intros h).
  - by apply cache_ok_getitem.
  - unfold RepoRefOps.getitem. by destruct (negb _).
  - unfold RepoRefOps.setitem. by destruct key.
  - done.
  - unfold RepoRefOps.delitem. by destruct (dict_delitem _ _).
  - unfold RepoRefOps.get, RepoRefOps.getitem.
    destruct (negb _); [done|]. by destruct (dict_getitem _ _) as [|[]].
  - done.
  - rewrite Repo_delete_state.
    pose proof (cache_ok_getitem name st Hok) as Hok'.
    destruct (Repo_getitem name st) as [st' [o|e]]; [|done].
    by apply cache_ok_on_handle.
Qed.

Lemma step_keeps_binding (op : SessionOp) (r : string) (o : oid) st
    (refs : list (string * oid)) :
  active_refs (self st) = Some refs ->
  assoc_find refs r = Some o ->
  exists refs', active_refs (self (step op st)) = Some refs' /\
                assoc_find refs' r = Some o.
Proof.
  intros Hrefs Hfind. destruct op; simpl;
    try (rewrite on_handle_self; by eauto).
  - by eapply Repo_getitem_keeps_binding.
  - rewrite Repo_delete_state.
    destruct (Repo_getitem_keeps_binding name r o st refs Hrefs Hfind)
      as (refs' & Hrefs' & Hfind').
    destruct (Repo_getitem name st) as [st' [o'|e]]; simpl in *.
    + rewrite on_handle_self. eauto.
    + eauto.
Qed.

(** Whatever the caller does in between, the cache stays an identity map
    and keeps the bindings it has. *)
Lemma run_ops_cache_ok (ops : list SessionOp) st :
  cache_ok st = true -> cache_ok (run_ops ops st) = true.
Proof.
  revert st. induction ops as [|op ops IH]; intros st Hok; simpl; [done|].
  by apply IH, step_cache_ok.
Qed.

Lemma run_ops_keeps_binding (ops : list SessionOp) (r : string) (o : oid) st
    (refs : list (string * oid)) :
  active_refs (self st) = Some refs ->
  assoc_find refs r = Some o ->
  exists refs', active_refs (self (run_ops ops st)) = Some refs' /\
                assoc_find refs' r = Some o.
Proof.
  revert st refs. induction ops as [|op ops IH]; intros st refs Hrefs Hfind; simpl.
  - eauto.
  - destruct (step_keeps_binding op r o st refs Hrefs Hfind) as (refs' & ? & ?).
    by eapply IH.
Qed.

(** Every state of a session, from [Repo(...)] through [__enter__] and any
    operations of the caller, has an identity map as its cache. *)
Lemma session_cache_ok (path : string) (push : bool) (w : G) (ops : list SessionOp) :
  cache_ok (run_ops ops (fst (Repo_enter (Repo_init path push w)))) = true.
Proof. apply run_ops_cache_ok, cache_ok_enter, cache_ok_init. Qed.

End CacheFacts.

(** C6.  In a session whose cache is an identity map (as it is from
    [__enter__] on), take two resolves, with any operations of the caller
    in between, whose names resolve to the same canonical reference.
    They return the same handle object: the second call finds it in the
    cache under that reference, creates nothing and leaves the cache as it
    is.  A value set through the first handle is read back through the
    second. *)
Theorem C6_same_reference_same_handle {G : Type} `{GitTool G}
    (st st1 st2 : State G) (ops : list SessionOp)
    (name1 name2 out1 out2 : string) (o1 o2 : oid) :
  cache_ok st = true ->
  Repo_getitem name1 st = (st1, Ok o1) ->
  Repo_getitem name2 (run_ops ops st1) = (st2, Ok o2) ->
  snd (run_rev_parse (repo_path (self st)) (Some name1) (world st)) = Stdout out1 ->
  snd (run_rev_parse (repo_path (self (run_ops ops st1))) (Some name2)
         (world (run_ops ops st1))) = Stdout out2 ->
  strip out1 = strip out2 ->
  o2 = o1 /\
  heap st2 = heap (run_ops ops st1) /\ self st2 = self (run_ops ops st1) /\
  cache_ok st2 = true /\
  (exists refs, active_refs (self st2) = Some refs /\
                assoc_find refs (strip out1) = Some o1) /\
  (forall k v,
      snd (on_handle o2 (fun h => RepoRefOps.getitem h (PyStr k))
             (fst (on_handle o1 (fun h => RepoRefOps.setitem h (PyStr k) v) st2)))
      = Ok v).
Proof.
  intros Hok Hget1 Hget2 Hrev1 Hrev2 Hsame.
  pose proof (cache_ok_getitem name1 st Hok) as Hok1. rewrite Hget1 in Hok1. simpl in Hok1.
  apply Repo_getitem_ok in Hget1
    as (out1' & refs0 & refs1 & Hrev1' & _ & Hrefs1 & Hfind1 & _).
  rewrite Hrev1 in Hrev1'. injection Hrev1' as <-.
  destruct (run_ops_keeps_binding ops _ _ _ _ Hrefs1 Hfind1) as (refs1' & Hrefs1' & Hfind1').
  pose proof (run_ops_cache_ok ops _ Hok1) as Hok1'.
  apply Repo_getitem_ok in Hget2
    as (out2' & refs1'' & refs2 & Hrev2' & Hrefs1'' & Hrefs2 & Hfind2 & Hcase).
  rewrite Hrev2 in Hrev2'. injection Hrev2' as <-.
  rewrite Hrefs1' in Hrefs1''. injection Hrefs1'' as <-.
  rewrite <- Hsame, Hfind1' in Hcase. destruct Hcase as (-> & -> & Hh & Hs).
  assert (cache_ok st2 = true) as Hok2 by (by rewrite (cache_ok_same _ _ Hs Hh)).
  repeat split; try done; [by eauto|].
  intros k v.
  destruct (cache_ok_lookup _ _ _ _ Hok2 Hrefs2 Hfind2) as (h & Ho & _).
  unfold on_handle at 2. rewrite Ho. simpl.
  unfold on_handle. simpl.
  rewrite list_lookup_insert_eq by (by eapply lookup_lt_Some). simpl.
  unfold dict_getitem, dict_find, dict_store. simpl.
  by rewrite assoc_find_store_eq.
Qed.

Lemma C6_same_reference_same_handle_witness :
  let st := Demo.opened false Demo.repo_on_disk in
  let ops := [op_setitem 0 (PyStr "build_status") (PyStr "passing");
              op_resolve "dev"; op_clear 1] in
  let st1 := fst (Repo_getitem "main" st) in
  let st2 := fst (Repo_getitem "1f3a" (run_ops ops st1)) in
  0 = 0 /\
  heap st2 = heap (run_ops ops st1) /\ self st2 = self (run_ops ops st1) /\
  cache_ok st2 = true /\
  (exists refs, active_refs (self st2) = Some refs /\
                assoc_find refs (strip (String.append "1f3a" newline)) = Some 0) /\
  (forall k v,
      snd (on_handle 0 (fun h => RepoRefOps.getitem h (PyStr k))
             (fst (on_handle 0 (fun h => RepoRefOps.setitem h (PyStr k) v) st2)))
      = Ok v).
Proof.
  intros st ops st1 st2.
  apply (C6_same_reference_same_handle st st1 st2 ops "main" "1f3a"
           (String.append "1f3a" newline) (String.append "1f3a" newline) 0 0);
    vm_compute; reflexivity.
Defined.

(** ** Serialising and reloading a document *)

Lemma json_dumps_list (l : list PyVal) :
  json_dumps (PyList l)
  = match dumps_items l with Ok js => Ok (JArr js) | Raise e => Raise e end.
Proof.
  reflexivity.
Qed.


Lemma json_dumps_dict (d : dict) :
  json_dumps (PyDict d)
  = match dumps_members d with Ok js => Ok (JObj js) | Raise e => Raise e end.
Proof.
  reflexivity.
Qed.

(** Storing the members of a dict one by one into a dict that shares no
    key with it appends them. *)
Lemma dict_of_pairs_acc (d acc : dict) :
  distinct (map fst d) = true ->
  (forall k, existsb (String.eqb k) (map fst d) = true ->
             assoc_find acc k = None) ->
  fold_left (fun a kv => dict_store a (fst kv) (snd kv)) d acc = acc ++ d.
Proof.
  revert acc. induction d as [|[k v] d IH]; intros acc Hd Hacc; simpl.
  - by rewrite app_nil_r.
  - simpl in Hd. apply andb_prop in Hd as [Hk Hd]. apply negb_true_iff in Hk.
    assert (dict_store acc k v = acc ++ [(k, v)]) as ->.
    { apply assoc_store_absent, Hacc. simpl. by rewrite String.eqb_refl. }
    rewrite IH, <- app_assoc; [done|done|].
    intros k' Hk'. rewrite assoc_find_app, Hacc.
    + simpl. destruct (String.eqb k k') eqn:Hkk; [|done].
      apply String.eqb_eq in Hkk as ->. by rewrite Hk in Hk'.
    + simpl. rewrite Hk'. apply orb_true_r.
Qed.

Lemma dict_of_pairs_distinct (d : dict) :
  distinct (map fst d) = true -> dict_of_pairs d = d.
Proof. intros Hd. unfold dict_of_pairs. by rewrite dict_of_pairs_acc. Qed.

(** [json.loads(json.dumps(v)) == v] for the values JSON represents
    natively. *)
Lemma json_round_trip (v : PyVal) :
  json_native v = true ->
  exists j, json_dumps v = Ok j /\ json_decode j = v.
Proof.
  induction v as [ |b|z|s|s|l IH|l IH|d IH] using PyVal_nested_ind;
    intros Hn; try discriminate; try (eexists; split; reflexivity).
  - rewrite json_dumps_list.
    assert (exists js, dumps_items l = Ok js /\ map json_decode js = l) as (js & -> & Hjs).
    { simpl in Hn. induction IH as [|x l Hx _ IHl]; simpl; [by exists []|].
      simpl in Hn. apply andb_prop in Hn as [Hnx Hnl].
      destruct (Hx Hnx) as (j & -> & Hj). destruct (IHl Hnl) as (js & -> & Hjs).
      exists (j :: js). simpl. by rewrite Hj, Hjs. }
    exists (JArr js). simpl. by rewrite Hjs.
  - rewrite json_dumps_dict. simpl in Hn. apply andb_prop in Hn as [Hd Hn].
    assert (exists js, dumps_members d = Ok js /\
              map (fun kv => (fst kv, json_decode (snd kv))) js = d) as (js & -> & Hjs).
    { clear Hd. induction IH as [|[k x] d Hx _ IHd]; simpl; [by exists []|].
      simpl in Hn, Hx. apply andb_prop in Hn as [Hnx Hnd].
      destruct (Hx Hnx) as (j & -> & Hj). destruct (IHd Hnd) as (js & -> & Hjs).
      exists ((k, j) :: js). simpl. by rewrite Hj, Hjs. }
    exists (JObj js). simpl. by rewrite Hjs, dict_of_pairs_distinct.
Qed.

(** ** Closing and reopening on the reference collaborator *)

Section SimpleGitFacts.

Implicit Types (st : State SimpleGit).

Lemma simple_flush_one (h : RepoRef) st st' :
  repo_path (self st) = location (world st) ->
  flush_one h st = (st', Ok tt) ->
  heap st' = heap st /\ self st' = self st /\
  location (world st') = location (world st) /\
  resolves (world st') = resolves (world st) /\
  assoc_find (notes (world st')) (ref h) = note_after_flush h /\
  (forall r, r <> ref h ->
             assoc_find (notes (world st')) r = assoc_find (notes (world st)) r).
Proof.
  intros Hpath. unfold flush_one, note_after_flush.
  destruct (note_kv h) as [|kv d].
  - unfold git_notes_remove_, sh. simpl. rewrite Hpath, String.eqb_refl. simpl.
    intros [= <-]. simpl. repeat split; try done.
    + apply assoc_find_remove_eq.
    + intros r Hr. by apply assoc_find_remove_ne.
  - unfold bind, lift_result.
    destruct (json_dumps (PyDict (kv :: d))) as [j|e]; [|done].
    unfold git_notes_add_, sh. simpl. rewrite Hpath, String.eqb_refl. simpl.
    intros [= <-]. simpl. repeat split; try done.
    + apply assoc_find_store_eq.
    + intros r Hr. by apply assoc_find_store_ne.
Qed.

(** Closing leaves alone the notes of references that no cached handle
    is for, and leaves on a cached handle's reference the note of its
    document. *)
Lemma simple_exit_loop (values : list oid) st st' :
  repo_path (self st) = location (world st) ->
  exit_loop values st = (st', Ok tt) ->
  distinct (map (ref_of (heap st)) values) = true ->
  location (world st') = location (world st) /\
  resolves (world st') = resolves (world st) /\
  (forall r, existsb (String.eqb r) (map (ref_of (heap st)) values) = false ->
             assoc_find (notes (world st')) r = assoc_find (notes (world st)) r) /\
  (forall o h, In o values -> heap st !! o = Some h ->
               assoc_find (notes (world st')) (ref h) = note_after_flush h).
Proof.
  revert st. induction values as [|o0 rest IH]; intros st Hpath Hloop Hd.
  - injection Hloop as <-. by repeat split.
  - rewrite exit_loop_cons in Hloop. unfold bind at 1 in Hloop. unfold deref in Hloop.
    destruct (heap st !! o0) as [h0|] eqn:Ho0; [|done].
    unfold bind in Hloop. destruct (flush_one h0 st) as [st1 [[]|e]] eqn:H1; [|done].
    apply simple_flush_one in H1 as (Hh1 & Hs1 & Hloc1 & Hres1 & Hnote1 & Hother1); [|done].
    simpl in Hd. apply andb_prop in Hd as [Hfresh Hd]. apply negb_true_iff in Hfresh.
    assert (ref_of (heap st) o0 = ref h0) as Hr0 by (unfold ref_of; by rewrite Ho0).
    rewrite Hr0 in Hfresh.
    apply IH in Hloop as (Hloc & Hres & Hout & Hin);
      [|by rewrite Hs1, Hloc1|by rewrite Hh1].
    rewrite Hh1 in Hout, Hin.
    split; [congruence|]. split; [congruence|]. split.
    + intros r Hr. simpl in Hr. apply orb_false_elim in Hr as [Hr0' Hr].
      rewrite Hout by done. apply Hother1.
      rewrite Hr0 in Hr0'. by apply String.eqb_neq.
    + intros o h [->|Hino] Ho.
      * rewrite Ho0 in Ho. injection Ho as <-. by rewrite Hout.
      * by eapply Hin.
Qed.

Lemma cache_ok_refs st (refs : list (string * oid)) :
  cache_ok st = true -> active_refs (self st) = Some refs ->
  map (ref_of (heap st)) (map snd refs) = map fst refs.
Proof.
  unfold cache_ok. intros Hok Hrefs. rewrite Hrefs in Hok.
  apply andb_prop in Hok as [_ Hall]. rewrite forallb_forall in Hall.
  rewrite map_map. apply map_ext_in. intros [r o] Hin.
  specialize (Hall _ Hin). simpl in *. unfold ref_of.
  destruct (heap st !! o) as [h|]; [|done]. by apply String.eqb_eq.
Qed.


End SimpleGitFacts.




(** * Further properties of the code *)

(** ** The dictionary contract of a handle *)

Section DictFacts.

Implicit Types (d : dict) (k : string).

Lemma assoc_store_store {V} (d : list (string * V)) k (v1 v2 : V) :
  assoc_store (assoc_store d k v1) k v2 = assoc_store d k v2.
Proof.
  induction d as [|[k' v'] d IH]; simpl.
  - by rewrite String.eqb_refl.
  - destruct (String.eqb k' k) eqn:Hk; simpl; rewrite Hk; [done|]. by rewrite IH.
Qed.

Lemma assoc_store_keys_present {V} (d : list (string * V)) k (v0 v : V) :
  assoc_find d k = Some v0 -> map fst (assoc_store d k v) = map fst d.
Proof.
  induction d as [|[k' v'] d IH]; simpl; [done|].
  destruct (String.eqb k' k); simpl; [done|]. intros Hf. by rewrite IH.
Qed.

Lemma contains_str (h : RepoRef) k :
  snd (RepoRefOps.contains h (PyStr k))
  = Ok (bool_decide (is_Some (dict_find (note_kv h) k))).
Proof. reflexivity. Qed.

Lemma contains_true (h : RepoRef) k :
  snd (RepoRefOps.contains h (PyStr k)) = Ok true ->
  exists v, dict_find (note_kv h) k = Some v.
Proof.
  rewrite contains_str. intros [= Hb]. apply bool_decide_eq_true in Hb.
  by destruct Hb as [v Hv]; exists v.
Qed.

Lemma contains_false (h : RepoRef) k :
  snd (RepoRefOps.contains h (PyStr k)) = Ok false ->
  dict_find (note_kv h) k = None.
Proof.
  rewrite contains_str. intros [= Hb]. apply bool_decide_eq_false in Hb.
  destruct (dict_find (note_kv h) k); [|done]. by destruct Hb.
Qed.

End DictFacts.

(** X1.  Setting a string key succeeds, keeps the handle's reference, and
    makes the key present with the value set; the value read under any
    other key is what it was. *)
Theorem X1_setitem_then_getitem (h : RepoRef) (k k' : string) (v : PyVal) :
  k <> k' ->
  snd (RepoRefOps.setitem h (PyStr k) v) = Ok tt /\
  ref (fst (RepoRefOps.setitem h (PyStr k) v)) = ref h /\
  snd (RepoRefOps.getitem (fst (RepoRefOps.setitem h (PyStr k) v)) (PyStr k)) = Ok v /\
  snd (RepoRefOps.contains (fst (RepoRefOps.setitem h (PyStr k) v)) (PyStr k)) = Ok true /\
  snd (RepoRefOps.getitem (fst (RepoRefOps.setitem h (PyStr k) v)) (PyStr k'))
  = snd (RepoRefOps.getitem h (PyStr k')).
Proof.
  intros Hne. unfold RepoRefOps.setitem, RepoRefOps.getitem, RepoRefOps.contains,
    dict_getitem, dict_contains, dict_find, dict_store. simpl.
  rewrite assoc_find_store_eq, assoc_find_store_ne by done.
  repeat split.
Qed.

Lemma X1_setitem_then_getitem_witness :
  snd (RepoRefOps.getitem
         (fst (RepoRefOps.setitem {| ref := "1f3a"; note_kv := [("a", PyInt 1)] |}
                 (PyStr "b") (PyInt 2))) (PyStr "a")) = Ok (PyInt 1).
Proof.
  apply (X1_setitem_then_getitem {| ref := "1f3a"; note_kv := [("a", PyInt 1)] |}
           "b" "a" (PyInt 2)). discriminate.
Defined.

(** X2.  Within a handle the last write to a key wins: two writes to the
    same key leave the handle exactly as the second write alone would,
    and a write to a key that is already present keeps the keys and their
    order. *)
Theorem X2_setitem_last_write_wins (h : RepoRef) (k : string) (v1 v2 : PyVal) :
  fst (RepoRefOps.setitem (fst (RepoRefOps.setitem h (PyStr k) v1)) (PyStr k) v2)
  = fst (RepoRefOps.setitem h (PyStr k) v2) /\
  map fst (note_kv (fst (RepoRefOps.setitem (fst (RepoRefOps.setitem h (PyStr k) v1))
                           (PyStr k) v2)))
  = map fst (note_kv (fst (RepoRefOps.setitem h (PyStr k) v1))).
Proof.
  unfold RepoRefOps.setitem, set_note_kv, dict_store. simpl. split.
  - by rewrite assoc_store_store.
  - eapply assoc_store_keys_present, assoc_find_store_eq.
Qed.

(** X3.  Deleting a key that is present succeeds and removes it: the key
    is no longer contained, reading it raises [KeyError], and the value
    read under any other key is what it was. *)
Theorem X3_delitem_present (h : RepoRef) (k k' : string) :
  snd (RepoRefOps.contains h (PyStr k)) = Ok true ->
  k <> k' ->
  snd (RepoRefOps.delitem h (PyStr k)) = Ok tt /\
  ref (fst (RepoRefOps.delitem h (PyStr k))) = ref h /\
  snd (RepoRefOps.contains (fst (RepoRefOps.delitem h (PyStr k))) (PyStr k)) = Ok false /\
  snd (RepoRefOps.getitem (fst (RepoRefOps.delitem h (PyStr k))) (PyStr k))
  = Raise (KeyError (PyStr k)) /\
  snd (RepoRefOps.getitem (fst (RepoRefOps.delitem h (PyStr k))) (PyStr k'))
  = snd (RepoRefOps.getitem h (PyStr k')).
Proof.
  intros [v0 Hv0]%contains_true Hne.
  unfold RepoRefOps.delitem, dict_delitem. simpl. rewrite Hv0. simpl.
  unfold RepoRefOps.getitem, RepoRefOps.contains, dict_getitem, dict_contains,
    dict_find, dict_remove. simpl.
  rewrite assoc_find_remove_eq, assoc_find_remove_ne by done.
  repeat split.
Qed.

Lemma X3_delitem_present_witness :
  snd (RepoRefOps.getitem
         (fst (RepoRefOps.delitem
                 {| ref := "1f3a"; note_kv := [("a", PyInt 1); ("b", PyInt 2)] |}
                 (PyStr "a"))) (PyStr "a")) = Raise (KeyError (PyStr "a")).
Proof.
  apply (X3_delitem_present
           {| ref := "1f3a"; note_kv := [("a", PyInt 1); ("b", PyInt 2)] |} "a" "b");
    [reflexivity|discriminate].
Defined.

(** X4.  For a string key that is absent, reading and deleting both raise
    [KeyError] with that key and leave the handle as it was, while [get]
    returns the default it was given. *)
Theorem X4_missing_key (h : RepoRef) (k : string) (default : PyVal) :
  snd (RepoRefOps.contains h (PyStr k)) = Ok false ->
  RepoRefOps.getitem h (PyStr k) = (h, Raise (KeyError (PyStr k))) /\
  RepoRefOps.delitem h (PyStr k) = (h, Raise (KeyError (PyStr k))) /\
  RepoRefOps.get h (PyStr k) default = (h, Ok default).
Proof.
  intros Hnone%contains_false.
  unfold RepoRefOps.get, RepoRefOps.getitem, RepoRefOps.delitem,
    dict_getitem, dict_delitem. simpl. by rewrite Hnone.
Qed.

Lemma X4_missing_key_witness :
  RepoRefOps.get {| ref := "1f3a"; note_kv := [("a", PyInt 1)] |} (PyStr "zz") PyNone
  = ({| ref := "1f3a"; note_kv := [("a", PyInt 1)] |}, Ok PyNone).
Proof.
  apply (X4_missing_key {| ref := "1f3a"; note_kv := [("a", PyInt 1)] |} "zz" PyNone).
  reflexivity.
Defined.

(** X5.  [get] with a string key never raises and never changes the
    handle: it returns the stored value when the key is present (what
    [__getitem__] returns) and the default otherwise; with a key that is
    not a string it raises [ValueError] like [__getitem__], whatever the
    default. *)
Theorem X5_get_with_default (h : RepoRef) (key default : PyVal) :
  fst (RepoRefOps.get h key default) = h /\
  snd (RepoRefOps.get h key default)
  = match key with
    | PyStr k =>
        match snd (RepoRefOps.getitem h key) with
        | Ok v => Ok v
        | Raise _ => Ok default
        end
    | _ => Raise ValueError
    end.
Proof.
  unfold RepoRefOps.get, RepoRefOps.getitem, dict_getitem.
  destruct key; simpl; try done.
  by destruct (dict_find (note_kv h) s).
Qed.

(** ** Opening a session *)

(** X6.  [__enter__] runs [git rev-parse] once.  When it exits with code
    128 the call raises [RepoDoesNotExistError] carrying the repository
    path; any other non-zero exit code propagates as it is.  In both cases
    the [Repo] object is left as it was: no cache is set up. *)
Theorem X6_enter_failure {G : Type} `{GitTool G} (st : State G) (code : Z) :
  snd (run_rev_parse (repo_path (self st)) None (world st)) = ExitCode code ->
  snd (Repo_enter st)
  = Raise (if Z.eqb code 128 then RepoDoesNotExistError (repo_path (self st))
           else ErrorReturnCode code) /\
  self (fst (Repo_enter st)) = self st /\
  heap (fst (Repo_enter st)) = heap st /\
  issued Repo_enter st = [git_rev_parse None].
Proof.
  intros Hrev. unfold issued, Repo_enter, try_except, bind, git_rev_parse_, sh.
  rewrite Hrev. simpl. destruct (Z.eqb code 128); simpl;
    by rewrite drop_app_length.
Qed.

Lemma X6_enter_failure_witness :
  snd (Repo_enter (Repo_init "/tmp/elsewhere" false Demo.repo_on_disk))
  = Raise (RepoDoesNotExistError "/tmp/elsewhere").
Proof.
  apply (X6_enter_failure (Repo_init "/tmp/elsewhere" false Demo.repo_on_disk) 128).
  reflexivity.
Defined.

(** X7.  When [git rev-parse] succeeds, [__enter__] returns normally and
    assigns an empty cache, keeping the path and the push flag.  Handles
    cached by an earlier use of the same [Repo] object are forgotten, so
    closing right after entering issues no command at all. *)
Theorem X7_enter_success {G : Type} `{GitTool G} (st : State G) (out : string) :
  snd (run_rev_parse (repo_path (self st)) None (world st)) = Stdout out ->
  snd (Repo_enter st) = Ok tt /\
  self (fst (Repo_enter st))
  = {| repo_path := repo_path (self st); remote_push := remote_push (self st);
       active_refs := Some [] |} /\
  heap (fst (Repo_enter st)) = heap st /\
  issued Repo_enter st = [git_rev_parse None] /\
  snd (Repo_exit (fst (Repo_enter st))) = Ok tt /\
  issued Repo_exit (fst (Repo_enter st)) = [].
Proof.
  intros Hrev. unfold issued, Repo_enter, try_except, bind, git_rev_parse_, sh.
  rewrite Hrev. simpl. rewrite !drop_app_length.
  repeat split. unfold Repo_exit, bind. simpl. by rewrite drop_all.
Qed.

Lemma X7_enter_success_witness :
  issued Repo_exit (fst (Repo_enter (fst (Repo_exit Demo.one_write)))) = [].
Proof.
  apply (X7_enter_success (fst (Repo_exit Demo.one_write)) ""). reflexivity.
Defined.

(** ** Resolving a reference *)

(** X8.  When [git rev-parse key] exits with code 128, resolving raises
    [GitReferenceDoesNotExistError] carrying the requested name; any other
    non-zero exit code propagates as it is.  Nothing else is run, and the
    cache and the handles are as before. *)
Theorem X8_resolve_unknown_reference {G : Type} `{GitTool G}
    (st : State G) (key : string) (code : Z) :
  snd (run_rev_parse (repo_path (self st)) (Some key) (world st)) = ExitCode code ->
  snd (Repo_getitem key st)
  = Raise (if Z.eqb code 128 then GitReferenceDoesNotExistError key
           else ErrorReturnCode code) /\
  self (fst (Repo_getitem key st)) = self st /\
  heap (fst (Repo_getitem key st)) = heap st /\
  issued (Repo_getitem key) st = [git_rev_parse (Some key)].
Proof.
  intros Hrev. unfold issued. rewrite Repo_getitem_eq. cbv zeta. rewrite Hrev. simpl.
  by rewrite drop_app_length.
Qed.

Lemma X8_resolve_unknown_reference_witness :
  snd (Repo_getitem "no-such-branch" (Demo.opened false Demo.repo_on_disk))
  = Raise (GitReferenceDoesNotExistError "no-such-branch").
Proof.
  apply (X8_resolve_unknown_reference (Demo.opened false Demo.repo_on_disk)
           "no-such-branch" 128).
  reflexivity.
Defined.

(** X9.  When the name resolves to a reference that is not cached and
    [git notes show] ends with an exit code other than 1, resolving fails:
    exit code 128 is reported as [GitReferenceDoesNotExistError] with the
    requested name (the handler around the whole of [__getitem__] catches
    it), any other code propagates as it is.  The reference is not
    cached. *)
Theorem X9_resolve_notes_show_failure {G : Type} `{GitTool G}
    (st : State G) (key out : string) (refs : list (string * oid)) (code : Z) :
  snd (run_rev_parse (repo_path (self st)) (Some key) (world st)) = Stdout out ->
  active_refs (self st) = Some refs ->
  assoc_find refs (strip out) = None ->
  snd (run_notes_show (repo_path (self st)) (strip out)
         (fst (run_rev_parse (repo_path (self st)) (Some key) (world st))))
  = ExitCode code ->
  code <> 1%Z ->
  snd (Repo_getitem key st)
  = Raise (if Z.eqb code 128 then GitReferenceDoesNotExistError key
           else ErrorReturnCode code) /\
  self (fst (Repo_getitem key st)) = self st /\
  heap (fst (Repo_getitem key st)) = heap st /\
  issued (Repo_getitem key) st
  = [git_rev_parse (Some key); git_notes_show (strip out)].
Proof.
  intros Hrev Hrefs Hfind Hshow Hcode.
  unfold issued. rewrite Repo_getitem_eq. cbv zeta. rewrite Hrev, Hrefs, Hfind.
  rewrite RepoRef_init_eq. cbv zeta. simpl. rewrite Hshow.
  apply Z.eqb_neq in Hcode. rewrite Hcode. simpl.
  rewrite <- app_assoc.
  destruct (Z.eqb code 128); simpl; by rewrite drop_app_length.
Qed.

Lemma X9_resolve_notes_show_failure_witness :
  snd (@Repo_getitem Z notes_show_fails "main"
         (fst (@Repo_enter Z notes_show_fails
                 (@Repo_init Z "/srv/repo" false 128%Z))))
  = Raise (GitReferenceDoesNotExistError "main").
Proof.
  apply (@X9_resolve_notes_show_failure Z notes_show_fails
           (fst (@Repo_enter Z notes_show_fails (@Repo_init Z "/srv/repo" false 128%Z)))
           "main" "main" [] 128%Z); try reflexivity. discriminate.
Defined.

(** X10.  Resolving on a [Repo] that was never entered raises
    [AttributeError] (there is no cache yet), after [git rev-parse] has
    run. *)
Theorem X10_resolve_before_enter {G : Type} `{GitTool G}
    (st : State G) (key out : string) :
  active_refs (self st) = None ->
  snd (run_rev_parse (repo_path (self st)) (Some key) (world st)) = Stdout out ->
  snd (Repo_getitem key st) = Raise AttributeError /\
  self (fst (Repo_getitem key st)) = self st /\
  issued (Repo_getitem key) st = [git_rev_parse (Some key)].
Proof.
  intros Hrefs Hrev. unfold issued. rewrite Repo_getitem_eq. cbv zeta.
  rewrite Hrev, Hrefs. simpl. by rewrite drop_app_length.
Qed.

Lemma X10_resolve_before_enter_witness :
  snd (Repo_getitem "main" (Repo_init "/srv/repo" false Demo.repo_on_disk))
  = Raise AttributeError.
Proof.
  apply (X10_resolve_before_enter (Repo_init "/srv/repo" false Demo.repo_on_disk)
           "main" (String.append "1f3a" newline)); reflexivity.
Defined.

(** X11.  Resolving a name whose reference is already cached returns the
    cached handle after [git rev-parse] alone: the note is not read again,
    no handle is created, and the cache is as before. *)
Theorem X11_resolve_cached_no_reload {G : Type} `{GitTool G}
    (st : State G) (key out : string) (refs : list (string * oid)) (o : oid) :
  snd (run_rev_parse (repo_path (self st)) (Some key) (world st)) = Stdout out ->
  active_refs (self st) = Some refs ->
  assoc_find refs (strip out) = Some o ->
  snd (Repo_getitem key st) = Ok o /\
  self (fst (Repo_getitem key st)) = self st /\
  heap (fst (Repo_getitem key st)) = heap st /\
  issued (Repo_getitem key) st = [git_rev_parse (Some key)].
Proof.
  intros Hrev Hrefs Hfind. unfold issued. rewrite Repo_getitem_eq. cbv zeta.
  rewrite Hrev, Hrefs, Hfind. simpl. by rewrite drop_app_length.
Qed.

Lemma X11_resolve_cached_no_reload_witness :
  issued (Repo_getitem "1f3a") Demo.one_write = [git_rev_parse (Some "1f3a")].
Proof.
  apply (X11_resolve_cached_no_reload Demo.one_write "1f3a"
           (String.append "1f3a" newline) [("1f3a", 0)] 0); reflexivity.
Defined.



(** ** Handles between load and close *)



Section MoreCloseFacts.

Context {G : Type} `{GitTool G}.
Implicit Types (st : State G).




End MoreCloseFacts.

(** X14.  Closing changes neither the handles nor the [Repo] object: the
    documents and the cache are still there after [__exit__], whether it
    returned or raised. *)
Theorem X14_close_keeps_session_objects {G : Type} `{GitTool G} (st : State G) :
  heap (fst (Repo_exit st)) = heap st /\ self (fst (Repo_exit st)) = self st.
Proof.
  destruct (active_refs (self st)) as [refs|] eqn:Hr.
  - rewrite (Repo_exit_unfold _ _ Hr).
    destruct (exit_loop (map snd refs) st) as [st' res] eqn:Hl.
    by apply exit_loop_inv in Hl as (Hh & Hs & _).
  - by rewrite Repo_exit_not_entered.
Qed.





(** ** [Repo.__delete__] *)

(** X17.  [Repo.__delete__] resolves the name and empties the document of
    its handle, leaving the handle cached; when resolving fails it raises
    the same exception and clears nothing.  Nothing reaches the
    repository before close. *)
Theorem X17_delete_clears_the_handle {G : Type} `{GitTool G}
    (st st1 : State G) (key : string) (res : result oid) :
  cache_ok st = true ->
  Repo_getitem key st = (st1, res) ->
  match res with
  | Ok o =>
      exists h, heap st1 !! o = Some h /\
        Repo_delete key st
        = ({| world := world st1; log := log st1;
              heap := <[o := {| ref := ref h; note_kv := [] |}]> (heap st1);
              self := self st1 |}, Ok tt)
  | Raise e => Repo_delete key st = (st1, Raise e)
  end.
Proof.
  intros Hok Hget. unfold Repo_delete, bind. rewrite Hget.
  destruct res as [o|e]; [|done].
  pose proof (cache_ok_getitem key st Hok) as Hok1. rewrite Hget in Hok1. simpl in Hok1.
  apply Repo_getitem_ok in Hget as (out & refs & refs' & _ & _ & Hrefs' & Hfind & _).
  destruct (cache_ok_lookup _ _ _ _ Hok1 Hrefs' Hfind) as (h & Ho & _).
  exists h. split; [done|]. unfold on_handle. by rewrite Ho.
Qed.

Lemma X17_delete_clears_the_handle_witness :
  exists h, heap (fst (Repo_getitem "main" Demo.one_write)) !! 0 = Some h /\
    Repo_delete "main" Demo.one_write
    = ({| world := world (fst (Repo_getitem "main" Demo.one_write));
          log := log (fst (Repo_getitem "main" Demo.one_write));
          heap := <[0 := {| ref := ref h; note_kv := [] |}]>
                    (heap (fst (Repo_getitem "main" Demo.one_write)));
          self := self (fst (Repo_getitem "main" Demo.one_write)) |}, Ok tt).
Proof.
  apply (X17_delete_clears_the_handle Demo.one_write
           (fst (Repo_getitem "main" Demo.one_write)) "main" (Ok 0));
    vm_compute; reflexivity.
Defined.

(** ** Closing on the reference collaborator *)

Section SimpleCloseFacts.

Implicit Types (st : State SimpleGit).

Lemma simple_flush_one_ok (h : RepoRef) st :
  repo_path (self st) = location (world st) ->
  is_ok (json_dumps (PyDict (note_kv h))) = true ->
  snd (flush_one h st) = Ok tt.
Proof.
  intros Hpath Hser. unfold flush_one. destruct (note_kv h) as [|kv d].
  - unfold git_notes_remove_, sh. simpl. by rewrite Hpath, String.eqb_refl.
  - unfold bind, lift_result. destruct (json_dumps _) as [j|e]; [|done].
    unfold git_notes_add_, sh. simpl. by rewrite Hpath, String.eqb_refl.
Qed.

Lemma simple_exit_loop_ok (values : list oid) st :
  repo_path (self st) = location (world st) ->
  all_serialisable (heap st) values = true ->
  snd (exit_loop values st) = Ok tt.
Proof.
  revert st. induction values as [|o rest IH]; intros st Hpath Hall; [done|].
  simpl in Hall. apply andb_prop in Hall as [Ho Hrest].
  rewrite exit_loop_cons. unfold bind at 1. unfold deref.
  destruct (heap st !! o) as [h|] eqn:Hh; [|done].
  unfold bind. pose proof (simple_flush_one_ok h st Hpath Ho) as H1.
  destruct (flush_one h st) as [st1 res1] eqn:Hf. simpl in H1. subst res1.
  apply simple_flush_one in Hf as (Hh1 & Hs1 & Hloc1 & _); [|done].
  apply IH; [by rewrite Hs1, Hloc1|by rewrite Hh1].
Qed.

End SimpleCloseFacts.

(** X18.  On the reference collaborator, closing a session whose cached
    documents are all JSON-serialisable returns normally.  Afterwards the
    note of each cached reference is the serialised document of its
    handle, or is absent when that document is empty; the notes of all
    other references, and what names resolve to, are as before. *)
Theorem X18_close_succeeds_and_writes
    (st : State SimpleGit) (refs : list (string * oid)) :
  repo_path (self st) = location (world st) ->
  cache_ok st = true ->
  active_refs (self st) = Some refs ->
  all_serialisable (heap st) (map snd refs) = true ->
  snd (Repo_exit st) = Ok tt /\
  resolves (world (fst (Repo_exit st))) = resolves (world st) /\
  (forall r o h,
      In (r, o) refs -> heap st !! o = Some h ->
      assoc_find (notes (world (fst (Repo_exit st)))) r = note_after_flush h) /\
  (forall r,
      assoc_find refs r = None ->
      assoc_find (notes (world (fst (Repo_exit st)))) r
      = assoc_find (notes (world st)) r).
Proof.
  intros Hpath Hok Hrefs Hser. rewrite (Repo_exit_unfold _ _ Hrefs).
  pose proof (simple_exit_loop_ok _ _ Hpath Hser) as Hres.
  destruct (exit_loop (map snd refs) st) as [st' res] eqn:Hloop. simpl in *. subst res.
  pose proof Hok as Hd. unfold cache_ok in Hd. rewrite Hrefs in Hd.
  apply andb_prop in Hd as [Hd Hall].
  apply simple_exit_loop in Hloop as (_ & Hresolves & Hout & Hin);
    [|done|by rewrite (cache_ok_refs _ _ Hok Hrefs)].
  rewrite (cache_ok_refs _ _ Hok Hrefs) in Hout.
  split; [done|]. split; [done|]. split.
  - intros r o h Hro Ho.
    rewrite forallb_forall in Hall. specialize (Hall _ Hro). simpl in Hall.
    rewrite Ho in Hall. apply String.eqb_eq in Hall as <-.
    apply (Hin o h); [|done]. by apply (in_map snd) in Hro.
  - intros r Hnone. by apply Hout, assoc_find_None_keys.
Qed.

Lemma X18_close_succeeds_and_writes_witness :
  snd (Repo_exit Demo.write_and_clear) = Ok tt /\
  resolves (world (fst (Repo_exit Demo.write_and_clear)))
  = resolves (world Demo.write_and_clear) /\
  (forall r o h,
      In (r, o) [("1f3a", 0); ("9c0e", 1)] -> heap Demo.write_and_clear !! o = Some h ->
      assoc_find (notes (world (fst (Repo_exit Demo.write_and_clear)))) r
      = note_after_flush h) /\
  (forall r,
      assoc_find [("1f3a", 0); ("9c0e", 1)] r = None ->
      assoc_find (notes (world (fst (Repo_exit Demo.write_and_clear)))) r
      = assoc_find (notes (world Demo.write_and_clear)) r).
Proof.
  apply (X18_close_succeeds_and_writes Demo.write_and_clear [("1f3a", 0); ("9c0e", 1)]);
    reflexivity.
Defined.

(** ** Documents as loaded *)

Section LoadedFacts.

Lemma distinct_assoc_store {V} (d : list (string * V)) (k : string) (v : V) :
  distinct (map fst d) = true -> distinct (map fst (assoc_store d k v)) = true.
Proof.
  intros Hd. destruct (assoc_find d k) as [v0|] eqn:Hf.
  - by rewrite (assoc_store_keys_present _ _ _ _ Hf).
  - rewrite (assoc_store_absent _ _ _ Hf), map_app. simpl.
    apply distinct_snoc; [done|]. by apply assoc_find_None_keys.
Qed.

Lemma forallb_assoc_store {V} (f : V -> bool) (d : list (string * V)) (k : string) (v : V) :
  forallb (fun kv => f (snd kv)) d = true -> f v = true ->
  forallb (fun kv => f (snd kv)) (assoc_store d k v) = true.
Proof.
  intros Hd Hv. induction d as [|[k' v'] d IH]; simpl in *.
  - by rewrite Hv.
  - apply andb_prop in Hd as [Hv' Hd].
    destruct (String.eqb k' k); simpl.
    + by rewrite Hv, Hd.
    + by rewrite Hv', IH.
Qed.

Lemma dict_of_pairs_native (pairs : dict) :
  forallb (fun kv => json_native (snd kv)) pairs = true ->
  json_native (PyDict (dict_of_pairs pairs)) = true.
Proof.
  unfold dict_of_pairs.
  assert (forall acc, json_native (PyDict acc) = true ->
            forallb (fun kv => json_native (snd kv)) pairs = true ->
            json_native (PyDict (fold_left (fun a kv => dict_store a (fst kv) (snd kv))
                                   pairs acc)) = true) as Hgen.
  { induction pairs as [|[k v] pairs IH]; intros acc Hacc Hp; simpl; [done|].
    simpl in Hp. apply andb_prop in Hp as [Hv Hp]. apply IH; [|done].
    simpl in *. apply andb_prop in Hacc as [Hd Hn]. apply andb_true_intro. split.
    - by apply distinct_assoc_store.
    - by apply forallb_assoc_store. }
  by apply Hgen.
Qed.

(** Whatever [json.loads] returns is built from the values JSON
    represents natively. *)
Lemma json_decode_native (j : Json) : json_native (json_decode j) = true.
Proof.
  induction j as [ |b|z|s|items IH|members IH] using Json_nested_ind; try done.
  - simpl. induction IH as [|x l Hx _ IHl]; simpl; [done|]. by rewrite Hx, IHl.
  - simpl json_decode. apply dict_of_pairs_native.
    induction IH as [|[k x] l Hx _ IHl]; simpl; [done|]. simpl in Hx. by rewrite Hx, IHl.
Qed.

End LoadedFacts.

(** X19.  A handle holds, when its construction returns, a document that
    [json.dumps] accepts: the empty document when there was no note, and
    otherwise the decoded note, whose values are all of the kinds JSON
    represents natively and whose keys are distinct.  A handle that is
    only read therefore cannot make close fail with [TypeError]. *)
Theorem X19_loaded_document_is_serialisable {G : Type} `{GitTool G}
    (st st' : State G) (r : string) (o : oid) :
  RepoRef_init r st = (st', Ok o) ->
  exists h, heap st' !! o = Some h /\ ref h = r /\
            json_native (PyDict (note_kv h)) = true /\
            is_ok (json_dumps (PyDict (note_kv h))) = true.
Proof.
  intros Hinit.
  assert (exists d, heap st' !! o = Some {| ref := r; note_kv := d |} /\
                    json_native (PyDict d) = true) as (d & Ho & Hn).
  { revert Hinit. rewrite RepoRef_init_eq. cbv zeta.
    destruct (snd (run_notes_show _ _ _)) as [[text|j]|code]; simpl; [done| |].
    - pose proof (json_decode_native j) as Hj.
      destruct (json_decode j) as [ | | | | | | |d]; try done.
      intros [= <- <-]. exists d. simpl.
      by rewrite lookup_app_r, Nat.sub_diag.
    - destruct (Z.eqb code 1); [|done]. intros [= <- <-]. exists []. simpl.
      by rewrite lookup_app_r, Nat.sub_diag. }
  exists {| ref := r; note_kv := d |}. repeat split; try done. cbn [note_kv].
  destruct (json_round_trip _ Hn) as (j & -> & _). done.
Qed.

Lemma X19_loaded_document_is_serialisable_witness :
  exists h, heap (fst (RepoRef_init "9c0e" (Demo.opened false Demo.repo_with_note))) !! 0
            = Some h /\ ref h = "9c0e" /\
            json_native (PyDict (note_kv h)) = true /\
            is_ok (json_dumps (PyDict (note_kv h))) = true.
Proof.
  apply (X19_loaded_document_is_serialisable (Demo.opened false Demo.repo_with_note)
           (fst (RepoRef_init "9c0e" (Demo.opened false Demo.repo_with_note))) "9c0e" 0).
  vm_compute. reflexivity.
Defined.

(** ** A write in one [with] block, read in the next *)

Section TwoSessions.

Implicit Types (g : SimpleGit).







End TwoSessions.

Section TwoSessionsClose.


End TwoSessionsClose.



(** ** The cache over a whole session *)

Lemma distinct_NoDup (l : list string) : distinct l = true -> NoDup l.
Proof.
  induction l as [|x l IH]; simpl; [constructor|].
  intros [Hx Hl]%andb_prop. constructor; [|by apply IH].
  apply negb_true_iff in Hx. intros Hin%list_elem_of_In.
  assert (existsb (String.eqb x) l = true) as Hex; [|by rewrite Hex in Hx].
  apply existsb_exists. exists x. split; [done|apply String.eqb_refl].
Qed.

(** X21.  From [Repo(...)] through [__enter__] and any sequence of
    resolves, handle method calls and [__delete__] calls, returning or
    raising, the cache stays an identity map: no reference is cached
    twice, and each cached reference maps to a live handle object whose
    [ref] is that reference. *)
Theorem X21_cache_is_an_identity_map {G : Type} `{GitTool G}
    (path : string) (push : bool) (w : G) (ops : list SessionOp)
    (refs : list (string * oid)) :
  active_refs (self (run_ops ops (fst (Repo_enter (Repo_init path push w)))))
  = Some refs ->
  NoDup (map fst refs) /\
  (forall r o, In (r, o) refs ->
     exists h, heap (run_ops ops (fst (Repo_enter (Repo_init path push w)))) !! o
               = Some h /\ ref h = r).
Proof.
  intros Hrefs. pose proof (session_cache_ok path push w ops) as Hok.
  unfold cache_ok in Hok. rewrite Hrefs in Hok. apply andb_prop in Hok as [Hd Hall].
  split; [by apply distinct_NoDup|].
  intros r o Hin. rewrite forallb_forall in Hall. specialize (Hall _ Hin). simpl in Hall.
  destruct (heap _ !! o) as [h|]; [|done]. exists h. split; [done|].
  by apply String.eqb_eq.
Qed.

Lemma X21_cache_is_an_identity_map_witness :
  NoDup (map fst [("1f3a", 0); ("9c0e", 1)]) /\
  (forall r o, In (r, o) [("1f3a", 0); ("9c0e", 1)] ->
     exists h, heap (run_ops [op_resolve "main"; op_resolve "no-such-branch";
                              op_setitem 0 (PyStr "k") (PyInt 1);
                              op_resolve "dev"; op_resolve "1f3a"; op_delete "9c0e"]
                       (fst (Repo_enter (Repo_init "/srv/repo" false Demo.repo_on_disk))))
               !! o = Some h /\ ref h = r).
Proof.
  apply (X21_cache_is_an_identity_map "/srv/repo" false Demo.repo_on_disk
           [op_resolve "main"; op_resolve "no-such-branch";
            op_setitem 0 (PyStr "k") (PyInt 1);
            op_resolve "dev"; op_resolve "1f3a"; op_delete "9c0e"]).
  reflexivity.
Defined.
